(** * The Dimension Data compute driver
    ([libcloud/compute/drivers/dimensiondata.py])

    A shallow embedding of [DimensionDataNodeDriver]: the XML documents it
    reads and builds, the requests it sends through its connection, and
    the entities it maps responses to.  Remote calls are threaded through
    a small state-and-exception monad whose state is the trace of what
    the driver has done so far. *)

From Stdlib Require Import ZArith Ascii String List Bool.
From stdpp Require Import base option gmap strings.
Import ListNotations.
Local Open Scope string_scope.
Local Open Scope Z_scope.

(** ** Python values and exceptions *)

(** The exception classes the driver can raise or let through.  Only the
    class is kept, not the message.  [External] stands for anything raised
    by a collaborator of the driver (transport, provider, base class). *)
Inductive exn : Type :=
| ValueError
| TypeError
| IndexError
| AttributeError
| KeyError
| External (name : string).

Inductive result (A : Type) : Type :=
| OK (a : A)
| Raise (e : exn).
Arguments OK {A} a.
Arguments Raise {A} e.

Definition result_bind {A B} (r : result A) (k : A -> result B) : result B :=
  match r with
  | OK a => k a
  | Raise e => Raise e
  end.

(** [a == b] on two values that are each a [str] or [None]. *)
Definition py_eq (a b : option string) : bool :=
  match a, b with
  | Some x, Some y => String.eqb x y
  | None, None => true
  | _, _ => false
  end.

(** [x is not None]. *)
Definition not_None {A} (x : option A) : bool :=
  match x with
  | Some _ => true
  | None => false
  end.

(** [str(x)] of a value that is a [str] or [None]; also what ['%s' % x]
    substitutes. *)
Definition py_str (x : option string) : string :=
  match x with
  | Some s => s
  | None => "None"
  end.

(** [str(b).lower()] of a [bool]. *)
Definition str_bool_lower (b : bool) : string :=
  if b then "true" else "false".

(** *** [int(s)] on a string

    Surrounding white space is stripped, one sign is allowed, and the rest
    is a non-empty run of decimal digits in which single underscores may
    separate digits.  Strings are sequences of bytes here, so only ASCII
    digits and white space are recognised. *)

Definition is_space (c : ascii) : bool :=
  let n := nat_of_ascii c in
  ((9 <=? n)%nat && (n <=? 13)%nat) || ((28 <=? n)%nat && (n <=? 32)%nat).

Definition is_digit (c : ascii) : bool :=
  let n := nat_of_ascii c in (48 <=? n)%nat && (n <=? 57)%nat.

Definition digit_value (c : ascii) : Z := Z.of_nat (nat_of_ascii c) - 48.

Fixpoint lstrip (s : string) : string :=
  match s with
  | String c s' => if is_space c then lstrip s' else s
  | EmptyString => EmptyString
  end.

Fixpoint rstrip (s : string) : string :=
  match s with
  | String c s' =>
      match rstrip s' with
      | EmptyString => if is_space c then EmptyString else String c EmptyString
      | r => String c r
      end
  | EmptyString => EmptyString
  end.

Definition strip (s : string) : string := rstrip (lstrip s).

Fixpoint digits (acc : Z) (after_digit : bool) (s : string) : option Z :=
  match s with
  | EmptyString => if after_digit then Some acc else None
  | String c s' =>
      if is_digit c then digits (10 * acc + digit_value c) true s'
      else if Ascii.eqb c "_" && after_digit then digits acc false s'
      else None
  end.

Definition int_of_str (s : string) : option Z :=
  match strip s with
  | String "-" r => Z.opp <$> digits 0 false r
  | String "+" r => digits 0 false r
  | r => digits 0 false r
  end.

(** [int(x)] where [x] is a [str] or [None]. *)
Definition py_int (x : option string) : result Z :=
  match x with
  | None => Raise TypeError
  | Some s =>
      match int_of_str s with
      | Some z => OK z
      | None => Raise ValueError
      end
  end.

(** ** XML documents (ElementTree) *)

(** An element: its tag in Clark notation ([{namespace}local]), its
    attributes in document order, its text and its children. *)
#[warnings="-register-all"]
Inductive Element : Type :=
  Elem (tag : string) (attrib : list (string * string))
       (text : option string) (children : list Element).

Definition tag (e : Element) : string := let 'Elem t _ _ _ := e in t.
Definition attrib (e : Element) : list (string * string) :=
  let 'Elem _ a _ _ := e in a.
Definition text (e : Element) : option string := let 'Elem _ _ x _ := e in x.
Definition children (e : Element) : list Element :=
  let 'Elem _ _ _ c := e in c.

(** [element.get(key)]. *)
Fixpoint assoc (key : string) (l : list (string * string)) : option string :=
  match l with
  | [] => None
  | (k, v) :: l' => if String.eqb k key then Some v else assoc key l'
  end.

Definition get (e : Element) (key : string) : option string :=
  assoc key (attrib e).

(** One step of a path: the children, tagged [t], of each element of
    [els], in document order. *)
Definition child_step (t : string) (els : list Element) : list Element :=
  flat_map (fun e => List.filter (fun c => String.eqb (tag c) t) (children e))
           els.

(** [element.iterfind(path)] for a path of child steps. *)
Definition iterfind (e : Element) (path : list string) : list Element :=
  fold_left (fun els t => child_step t els) path [e].

(** [element.find(path)]: the first match or [None]. *)
Definition ET_find (e : Element) (path : list string) : option Element :=
  head (iterfind e path).

(** [element.findall(path)]. *)
Definition ET_findall (e : Element) (path : list string) : list Element :=
  iterfind e path.

(** [element.findtext(path)]: the text of the first match, [''] when that
    element has no text, [None] when nothing matches. *)
Definition ET_findtext (e : Element) (path : list string) : option string :=
  match ET_find e path with
  | Some el => Some (match text el with Some s => s | None => EmptyString end)
  | None => None
  end.

(** The element without its children tagged [t]. *)
Definition remove_children (t : string) (e : Element) : Element :=
  let 'Elem g a x c := e in
  Elem g a x (List.filter (fun c => negb (String.eqb (tag c) t)) c).

(** [parent.append(child)], as [ET.SubElement] does. *)
Definition append (parent child : Element) : Element :=
  let 'Elem t a x c := parent in Elem t a x (c ++ [child])%list.

(** ** [libcloud.utils.xml] *)

(** [s.split('/')]. *)
Fixpoint split_slash_aux (cur : string) (s : string) : list string :=
  match s with
  | EmptyString => [cur]
  | String c s' =>
      if Ascii.eqb c "/" then cur :: split_slash_aux EmptyString s'
      else split_slash_aux (cur ++ String c EmptyString) s'
  end.

Definition split_slash (s : string) : list string :=
  split_slash_aux EmptyString s.

(** The tag [e] in the namespace: [{namespace}e], or [e] itself when there
    is no namespace. *)
Definition qualify (namespace e : string) : string :=
  match namespace with
  | EmptyString => e
  | _ => "{" ++ namespace ++ "}" ++ e
  end.

(** Modelled from the spec: [libcloud.utils.xml.fixxpath], one of the
    "low-level XML query helpers (element-by-namespaced-path lookup ...)"
    that the driver imports.  It puts the namespace in front of every step
    of a [/]-separated path; the result is given as the list of child
    steps that ElementTree reads the path as. *)
Definition fixxpath (xpath : string) (namespace : string) : list string :=
  map (qualify namespace) (split_slash xpath).

(** Modelled from the spec: [libcloud.utils.xml.findtext], the "text
    extraction" primitive: the text at a namespaced path, [None] when the
    path matches nothing. *)
Definition findtext (element : Element) (xpath namespace : string)
  : option string :=
  ET_findtext element (fixxpath xpath namespace).

(** Modelled from the spec: [libcloud.utils.xml.findall], the "namespaced
    subtree iteration" primitive. *)
Definition findall (element : Element) (xpath namespace : string)
  : list Element :=
  ET_findall element (fixxpath xpath namespace).

(** ** The trace monad *)

(** The three request methods of [DimensionDataConnection] the driver
    calls. *)
Inductive api : Type :=
| api_1            (* request_api_1 *)
| orgId_api_1      (* request_with_orgId_api_1 *)
| orgId_api_2.     (* request_with_orgId_api_2 *)

Record Request : Type := mkRequest {
  req_api : api;
  req_action : string;
  req_method : string;
  req_params : list (string * option string);
  req_data : option string;
}.

(** What the driver has done so far: root elements of request documents
    it has created with [ET.Element], and requests it has handed to the
    connection. *)
Inductive Event : Type :=
| Created (tag : string) (attrib : list (string * string))
| Sent (r : Request).

Definition Trace : Type := list Event.

Definition M (A : Type) : Type := Trace -> result A * Trace.

Definition ret {A} (a : A) : M A := fun t => (OK a, t).

Definition raise {A} (e : exn) : M A := fun t => (Raise e, t).

Definition bind {A B} (m : M A) (k : A -> M B) : M B :=
  fun t =>
    match m t with
    | (OK a, t') => k a t'
    | (Raise e, t') => (Raise e, t')
    end.

Definition lift {A} (r : result A) : M A := fun t => (r, t).

Definition emit (ev : Event) : M unit := fun t => (OK tt, (t ++ [ev])%list).

Notation "'let*' x ':=' m 'in' k" := (bind m (fun x => k))
  (at level 10, x name, m at level 100, k at level 200).
Notation "'do' m 'in' k" := (bind m (fun _ => k))
  (at level 10, m at level 100, k at level 200).
Notation "'let?' x ':=' r 'in' k" := (result_bind r (fun x => k))
  (at level 10, x name, r at level 100, k at level 200).

(** The requests of a trace, oldest first. *)
Definition sent (t : Trace) : list Request :=
  omap (fun ev => match ev with Sent r => Some r | Created _ _ => None end) t.

(** The roots of the request documents created in a trace. *)
Definition created (t : Trace) : list string :=
  omap (fun ev => match ev with Created g _ => Some g | Sent _ => None end) t.

(** [[f(x) for x in l]] where [f] may raise: the first exception ends the
    loop. *)
Fixpoint map_result {A B} (f : A -> result B) (l : list A) : result (list B) :=
  match l with
  | [] => OK []
  | x :: l' =>
      let? y := f x in
      let? ys := map_result f l' in
      OK (y :: ys)
  end.

(** ** Entities *)

(** [libcloud.compute.types.NodeState]. *)
Inductive NodeState : Type :=
| RUNNING
| REBOOTING
| TERMINATED
| PENDING
| UNKNOWN
| STOPPED.

(** Modelled from the spec: [DimensionDataStatus], "action, request time,
    user name, step count/name/number/percent-complete, failure reason -
    all optional". *)
Record DimensionDataStatus : Type := mkStatus {
  action : option string;
  request_time : option string;
  user_name : option string;
  number_of_steps : option string;
  step_name : option string;
  step_number : option string;
  step_percent_complete : option string;
  failure_reason : option string;
}.

(** [DimensionDataStatus()]. *)
Definition default_status : DimensionDataStatus :=
  mkStatus None None None None None None None None.

(** [NodeLocation], as the arguments its constructor is given. *)
Record NodeLocation : Type := mkLocation {
  loc_id : option string;
  loc_name : option string;
  loc_country : option string;
}.

(** Modelled from the spec: [DimensionDataNetwork], "id, name,
    description, Location, private-net CIDR, multicast flag, Status". *)
Record DimensionDataNetwork : Type := mkNetwork {
  net_id : option string;
  net_name : option string;
  net_description : option string;
  net_location : NodeLocation;
  net_private_net : option string;
  net_multicast : bool;
  net_status : DimensionDataStatus;
}.

(** Modelled from the spec: [DimensionDataNetworkDomain], "id, name,
    description, Location, Status". *)
Record DimensionDataNetworkDomain : Type := mkNetworkDomain {
  nd_id : option string;
  nd_name : option string;
  nd_description : option string;
  nd_location : NodeLocation;
  nd_status : DimensionDataStatus;
}.

(** Modelled from the spec: [DimensionDataVlan], "id, name, description,
    Location, Status". *)
Record DimensionDataVlan : Type := mkVlan {
  vlan_id : option string;
  vlan_name : option string;
  vlan_description : option string;
  vlan_location : NodeLocation;
  vlan_status : DimensionDataStatus;
}.

(** The values kept in the [extra] dictionaries. *)
Inductive pyval : Type :=
| VNone
| VStr (s : string)
| VInt (z : Z)
| VStatus (st : DimensionDataStatus)
| VLocation (l : NodeLocation).

Definition VOpt (x : option string) : pyval :=
  match x with
  | Some s => VStr s
  | None => VNone
  end.

(** [Node], as the arguments its constructor is given. *)
Record Node : Type := mkNode {
  Node_id : option string;
  Node_name : option string;
  Node_state : NodeState;
  public_ips : list string;
  private_ips : list string;
  Node_extra : gmap string pyval;
}.

(** [node.extra[key] = v]. *)
Definition set_extra (node : Node) (key : string) (v : pyval) : Node :=
  {| Node_id := Node_id node;
     Node_name := Node_name node;
     Node_state := Node_state node;
     public_ips := public_ips node;
     private_ips := private_ips node;
     Node_extra := <[key := v]> (Node_extra node) |}.

(** [NodeImage], as the arguments its constructor is given. *)
Record NodeImage : Type := mkImage {
  image_id : option string;
  image_name : string;
  image_extra : gmap string pyval;
}.

(** [NodeSize]. *)
Record NodeSize : Type := mkSize {
  size_id : Z;
  size_name : string;
  size_ram : Z;
  size_disk : Z;
  size_bandwidth : Z;
  size_price : Z;
}.

(** [NodeAuthPassword]. *)
Record NodeAuthPassword : Type := mkAuth {
  password : string;
  generated : bool;
}.

(** What a caller can pass for [ex_network], [ex_network_domain] and
    [ex_vlan]: [None], an object of one of the three classes, or any other
    object, of which only its [id] attribute (if it has one) matters. *)
Inductive pyobj : Type :=
| PyNone
| PyNetwork (n : DimensionDataNetwork)
| PyNetworkDomain (d : DimensionDataNetworkDomain)
| PyVlan (v : DimensionDataVlan)
| PyOther (id_attr : option (option string)).

(** [isinstance(x, DimensionDataNetwork)]. *)
Definition is_network (x : pyobj) : bool :=
  match x with PyNetwork _ => true | _ => false end.

(** [isinstance(x, DimensionDataNetworkDomain)]. *)
Definition is_network_domain (x : pyobj) : bool :=
  match x with PyNetworkDomain _ => true | _ => false end.

(** [x is not None]. *)
Definition is_not_None (x : pyobj) : bool :=
  match x with PyNone => false | _ => true end.

(** [x.id]. *)
Definition getattr_id (x : pyobj) : result (option string) :=
  match x with
  | PyNone => Raise AttributeError
  | PyNetwork n => OK (net_id n)
  | PyNetworkDomain d => OK (nd_id d)
  | PyVlan v => OK (vlan_id v)
  | PyOther (Some i) => OK i
  | PyOther None => Raise AttributeError
  end.

(** [o.get(key)] where [o] is the result of [find]: an attribute access
    on [None] raises. *)
Definition find_get (o : option Element) (key : string)
  : result (option string) :=
  match o with
  | Some e => OK (get e key)
  | None => Raise AttributeError
  end.

(** The value of an attribute of a new element.  The XML library refuses
    [None] there, [lxml] when the element is made and [xml.etree] when it
    is serialised, and so in both cases before the document is sent. *)
Definition attr_value (x : option string) : result string :=
  match x with
  | Some s => OK s
  | None => Raise TypeError
  end.

(** [list(filter(lambda x: x.id == location_id, locations))[0]]. *)
Definition filter_id_0 (location_id : option string)
  (locations : list NodeLocation) : result NodeLocation :=
  match List.filter (fun x => py_eq (loc_id x) location_id) locations with
  | l :: _ => OK l
  | [] => Raise IndexError
  end.

(** ** The driver *)

(** [self], as far as the driver's own code sets it. *)
Record Driver (Endpoint : Type) : Type := mkDriver {
  selected_region : Endpoint;
}.
Arguments mkDriver {Endpoint} _.
Arguments selected_region {Endpoint} _.

Section DimensionDataNodeDriver.

(** The constants imported from [libcloud.common.dimensiondata]. *)
Context (TYPES_URN SERVER_NS NETWORK_NS : string).
Context {Endpoint : Type} (API_ENDPOINTS : gmap string Endpoint).

(** [ET.tostring]. *)
Context (tostring : Element -> string).

(** The connection: the parsed document ([.object]) it answers a
    request with, or the exception it raises, given what has happened
    before. *)
Context (respond : Trace -> Request -> result Element).

(** The inherited [NodeDriver._get_and_check_auth] and
    [NodeDriver.__init__]. *)
Context {Auth : Type} (_get_and_check_auth : Auth -> result NodeAuthPassword).
Context (NodeDriver__init__ : Driver Endpoint -> string -> M unit).

(** *** Construction *)

(** [API_ENDPOINTS[region]]. *)
Definition getitem (region : string) : result Endpoint :=
  match API_ENDPOINTS !! region with
  | Some ep => OK ep
  | None => Raise KeyError
  end.

Definition __init__ (region : string) : M (Driver Endpoint) :=
  do (if bool_decide (region ∉ dom API_ENDPOINTS)
      then raise ValueError else ret tt) in
  let* ep := lift (getitem region) in
  let self := mkDriver ep in
  do NodeDriver__init__ self region in
  ret self.

(** *** Requests *)

Definition send (r : Request) : M Element :=
  fun t => (respond t r, (t ++ [Sent r])%list).

Definition request_api_1 (action : string)
  (params : list (string * option string)) : M Element :=
  send (mkRequest api_1 action "GET" params None).

Definition request_with_orgId_api_1 (action : string)
  (params : list (string * option string)) : M Element :=
  send (mkRequest orgId_api_1 action "GET" params None).

Definition request_with_orgId_api_2 (action method : string)
  (params : list (string * option string)) (data : option string)
  : M Element :=
  send (mkRequest orgId_api_2 action method params data).

(** [ET.Element(tag, attrib)]. *)
Definition ET_Element (tag : string) (attrib : list (string * string))
  : M Element :=
  do emit (Created tag attrib) in
  ret (Elem tag attrib None []).

(** [ET.SubElement(parent, tag)] followed by what the driver puts in the
    new child: the parent with the finished child appended. *)
Definition SubElement (parent child : Element) : Element :=
  append parent child.

(** *** Mapping responses to entities *)

Definition _to_status (element : option Element) : DimensionDataStatus :=
  match element with
  | None => default_status
  | Some element =>
      {| action := findtext element "action" TYPES_URN;
         request_time := findtext element "requestTime" TYPES_URN;
         user_name := findtext element "userName" TYPES_URN;
         number_of_steps := findtext element "numberOfSteps" TYPES_URN;
         step_name := findtext element "step/name" TYPES_URN;
         step_number := findtext element "step_number" TYPES_URN;
         step_percent_complete :=
           findtext element "step/percentComplete" TYPES_URN;
         failure_reason := findtext element "failureReason" TYPES_URN |}
  end.

Definition _to_location (element : Element) : NodeLocation :=
  {| loc_id := get element "id";
     loc_name := findtext element "displayName" TYPES_URN;
     loc_country := findtext element "country" TYPES_URN |}.

Definition _to_locations (object : Element) : list NodeLocation :=
  map _to_location (ET_findall object (fixxpath "datacenter" TYPES_URN)).

Definition list_locations : M (list NodeLocation) :=
  let* object :=
    request_with_orgId_api_2 "infrastructure/datacenter" "GET" [] None in
  ret (_to_locations object).

Definition _to_node (element : Element) : result Node :=
  let state :=
    if py_eq (findtext element "started" TYPES_URN) (Some "true")
    then RUNNING else TERMINATED in
  let status := _to_status (ET_find element (fixxpath "progress" TYPES_URN)) in
  let has_network_info :=
    not_None (ET_find element (fixxpath "networkInfo" TYPES_URN)) in
  let description := findtext element "description" TYPES_URN in
  let sourceImageId := findtext element "sourceImageId" TYPES_URN in
  let networkId := findtext element "networkId" TYPES_URN in
  let? networkDomainId :=
    if has_network_info
    then find_get (ET_find element (fixxpath "networkInfo" TYPES_URN))
                  "networkDomainId"
    else OK None in
  let datacenterId := get element "datacenterId" in
  let deployedTime := findtext element "createTime" TYPES_URN in
  let? cpuCount := py_int (findtext element "cpuCount" TYPES_URN) in
  let? memoryGb := py_int (findtext element "memoryGb" TYPES_URN) in
  let? OS_id :=
    find_get (ET_find element (fixxpath "operatingSystem" TYPES_URN)) "id" in
  let? OS_type :=
    find_get (ET_find element (fixxpath "operatingSystem" TYPES_URN))
             "family" in
  let? OS_displayName :=
    find_get (ET_find element (fixxpath "operatingSystem" TYPES_URN))
             "displayName" in
  let extra : gmap string pyval :=
    list_to_map
      [("description", VOpt description);
       ("sourceImageId", VOpt sourceImageId);
       ("networkId", VOpt networkId);
       ("networkDomainId", VOpt networkDomainId);
       ("datacenterId", VOpt datacenterId);
       ("deployedTime", VOpt deployedTime);
       ("cpuCount", VInt cpuCount);
       ("memoryMb", VInt (memoryGb * 1024));
       ("OS_id", VOpt OS_id);
       ("OS_type", VOpt OS_type);
       ("OS_displayName", VOpt OS_displayName);
       ("status", VStatus status)] in
  let public_ip := findtext element "publicIpAddress" TYPES_URN in
  let? private_ip :=
    if has_network_info
    then find_get
           (ET_find element (fixxpath "networkInfo/primaryNic" TYPES_URN))
           "privateIpv4"
    else find_get (ET_find element (fixxpath "nic" TYPES_URN))
                  "privateIpv4" in
  OK {| Node_id := get element "id";
        Node_name := findtext element "name" TYPES_URN;
        Node_state := state;
        public_ips := match public_ip with Some ip => [ip] | None => [] end;
        private_ips :=
          match private_ip with Some ip => [ip] | None => [] end;
        Node_extra := extra |}.

Definition _to_nodes (object : Element) : result (list Node) :=
  map_result _to_node (ET_findall object (fixxpath "Server" TYPES_URN)).

Definition _to_base_image (element : Element)
  (locations : list NodeLocation) : result NodeImage :=
  let location_id := get element "location" in
  let? location := filter_id_0 location_id locations in
  let extra : gmap string pyval :=
    list_to_map
      [("description", VOpt (findtext element "description" SERVER_NS));
       ("OS_type", VOpt (findtext element "operatingSystem/type" SERVER_NS));
       ("OS_displayName",
         VOpt (findtext element "operatingSystem/displayName" SERVER_NS));
       ("cpuCount", VOpt (findtext element "cpuCount" SERVER_NS));
       ("resourcePath", VOpt (findtext element "resourcePath" SERVER_NS));
       ("memory", VOpt (findtext element "memory" SERVER_NS));
       ("osStorage", VOpt (findtext element "osStorage" SERVER_NS));
       ("additionalStorage",
         VOpt (findtext element "additionalStorage" SERVER_NS));
       ("created", VOpt (findtext element "created" SERVER_NS));
       ("location", VLocation location)] in
  OK {| image_id := get element "id";
        image_name := py_str (findtext element "name" SERVER_NS);
        image_extra := extra |}.

Definition _to_base_images (object : Element) : M (list NodeImage) :=
  let* locations := list_locations in
  lift (map_result (fun element => _to_base_image element locations)
                   (ET_findall object (fixxpath "image" SERVER_NS))).

Definition _to_network (element : Element) (locations : list NodeLocation)
  : result DimensionDataNetwork :=
  let multicast :=
    py_eq (findtext element "multicast" NETWORK_NS) (Some "true") in
  let status := _to_status (ET_find element (fixxpath "status" NETWORK_NS)) in
  let location_id := findtext element "location" NETWORK_NS in
  let? location := filter_id_0 location_id locations in
  OK {| net_id := findtext element "id" NETWORK_NS;
        net_name := findtext element "name" NETWORK_NS;
        net_description := findtext element "description" NETWORK_NS;
        net_location := location;
        net_private_net := findtext element "privateNet" NETWORK_NS;
        net_multicast := multicast;
        net_status := status |}.

Definition _to_networks (object : Element) : M (list DimensionDataNetwork) :=
  let* locations := list_locations in
  lift (map_result (fun element => _to_network element locations)
                   (findall object "network" NETWORK_NS)).

Definition _to_network_domain (element : Element)
  (locations : list NodeLocation) : result DimensionDataNetworkDomain :=
  let status := _to_status (ET_find element (fixxpath "state" TYPES_URN)) in
  let location_id := get element "datacenterId" in
  let? location := filter_id_0 location_id locations in
  OK {| nd_id := get element "id";
        nd_name := findtext element "name" TYPES_URN;
        nd_description := findtext element "description" TYPES_URN;
        nd_location := location;
        nd_status := status |}.

Definition _to_network_domains (object : Element)
  : M (list DimensionDataNetworkDomain) :=
  let* locations := list_locations in
  lift (map_result (fun element => _to_network_domain element locations)
                   (findall object "networkDomain" TYPES_URN)).

Definition _to_vlan (element : Element) (locations : list NodeLocation)
  : result DimensionDataVlan :=
  let status := _to_status (ET_find element (fixxpath "state" TYPES_URN)) in
  let location_id := get element "datacenterId" in
  let? location := filter_id_0 location_id locations in
  OK {| vlan_id := get element "id";
        vlan_name := findtext element "name" TYPES_URN;
        vlan_description := findtext element "description" TYPES_URN;
        vlan_location := location;
        vlan_status := status |}.

Definition _to_vlans (object : Element) : M (list DimensionDataVlan) :=
  let* locations := list_locations in
  lift (map_result (fun element => _to_vlan element locations)
                   (findall object "vlan" TYPES_URN)).

(** *** The public operations *)

Definition ex_get_node_by_id (id : option string) : M Node :=
  let* node :=
    request_with_orgId_api_2 ("server/server/" ++ py_str id) "GET" [] None in
  lift (_to_node node).

Definition create_node (name : string) (image : NodeImage) (auth : Auth)
  (ex_description : string) (ex_network ex_network_domain ex_vlan : pyobj)
  (ex_is_started : bool) : M Node :=
  let* auth_obj := lift (_get_and_check_auth auth) in
  let password := password auth_obj in
  do (if negb (is_network ex_network)
      then if negb (is_network_domain ex_network_domain)
           then raise ValueError
           else ret tt
      else ret tt) in
  let* server_elm := ET_Element "deployServer" [("xmlns", TYPES_URN)] in
  let server_elm := SubElement server_elm (Elem "name" [] (Some name) []) in
  let server_elm :=
    SubElement server_elm (Elem "description" [] (Some ex_description) []) in
  let server_elm :=
    SubElement server_elm (Elem "imageId" [] (image_id image) []) in
  let server_elm :=
    SubElement server_elm
      (Elem "start" [] (Some (str_bool_lower ex_is_started)) []) in
  let server_elm :=
    SubElement server_elm
      (Elem "administratorPassword" [] (Some password) []) in
  let* server_elm :=
    if is_not_None ex_network
    then
      let* network_id := lift (getattr_id ex_network) in
      ret (SubElement server_elm
             (Elem "network" [] None [Elem "networkId" [] network_id []]))
    else ret server_elm in
  let* server_elm :=
    if is_not_None ex_network_domain
    then
      let* domain_id := lift (getattr_id ex_network_domain) in
      let* domain_id := lift (attr_value domain_id) in
      let* vlan_id := lift (getattr_id ex_vlan) in
      ret (SubElement server_elm
             (Elem "networkInfo" [("networkDomainId", domain_id)] None
                [Elem "primaryNic" [] None [Elem "vlanId" [] vlan_id []]]))
    else ret server_elm in
  let* response :=
    request_with_orgId_api_2 "server/deployServer" "POST" []
      (Some (tostring server_elm)) in
  let node_id :=
    fold_left
      (fun node_id info =>
         if py_eq (get info "name") (Some "serverId")
         then get info "value" else node_id)
      (findall response "info" TYPES_URN) None in
  let* node := ex_get_node_by_id node_id in
  ret (if generated auth_obj
       then set_extra node "password" (VStr password)
       else node).

Definition destroy_node (node : Node) : M bool :=
  let* id := lift (attr_value (Node_id node)) in
  let* request_elm :=
    ET_Element "deleteServer" [("xmlns", TYPES_URN); ("id", id)] in
  let* body :=
    request_with_orgId_api_2 "server/deleteServer" "POST" []
      (Some (tostring request_elm)) in
  let result := findtext body "responseCode" TYPES_URN in
  ret (py_eq result (Some "IN_PROGRESS")).

Definition reboot_node (node : Node) : M bool :=
  let* id := lift (attr_value (Node_id node)) in
  let* request_elm :=
    ET_Element "rebootServer" [("xmlns", TYPES_URN); ("id", id)] in
  let* body :=
    request_with_orgId_api_2 "server/rebootServer" "POST" []
      (Some (tostring request_elm)) in
  let result := findtext body "responseCode" TYPES_URN in
  ret (py_eq result (Some "IN_PROGRESS")).

Definition list_nodes : M (list Node) :=
  let* object := request_with_orgId_api_2 "server/server" "GET" [] None in
  lift (_to_nodes object).

Definition list_images (location : option NodeLocation)
  : M (list NodeImage) :=
  let params :=
    match location with
    | Some l => [("location", loc_id l)]
    | None => []
    end in
  let* object := request_api_1 "base/imageWithDiskSpeed" params in
  _to_base_images object.

Definition list_sizes (location : option NodeLocation) : list NodeSize :=
  [ {| size_id := 1; size_name := "default"; size_ram := 0;
       size_disk := 0; size_bandwidth := 0; size_price := 0 |} ].

Definition list_networks (location : option NodeLocation)
  : M (list DimensionDataNetwork) :=
  let* url_ext :=
    match location with
    | Some l =>
        match loc_id l with
        | Some i => ret ("/" ++ i)
        | None => raise TypeError
        end
    | None => ret EmptyString
    end in
  let* object :=
    request_with_orgId_api_1 ("networkWithLocation" ++ url_ext) [] in
  _to_networks object.

Definition ex_start_node (node : Node) : M bool :=
  let* id := lift (attr_value (Node_id node)) in
  let* request_elm :=
    ET_Element "startServer" [("xmlns", TYPES_URN); ("id", id)] in
  let* body :=
    request_with_orgId_api_2 "server/startServer" "POST" []
      (Some (tostring request_elm)) in
  let result := findtext body "responseCode" TYPES_URN in
  ret (py_eq result (Some "IN_PROGRESS")).

Definition ex_shutdown_graceful (node : Node) : M bool :=
  let* id := lift (attr_value (Node_id node)) in
  let* request_elm :=
    ET_Element "shutdownServer" [("xmlns", TYPES_URN); ("id", id)] in
  let* body :=
    request_with_orgId_api_2 "server/shutdownServer" "POST" []
      (Some (tostring request_elm)) in
  let result := findtext body "responseCode" TYPES_URN in
  ret (py_eq result (Some "IN_PROGRESS")).

Definition ex_power_off (node : Node) : M bool :=
  let* id := lift (attr_value (Node_id node)) in
  let* request_elm :=
    ET_Element "powerOffServer" [("xmlns", TYPES_URN); ("id", id)] in
  let* body :=
    request_with_orgId_api_2 "server/powerOffServer" "POST" []
      (Some (tostring request_elm)) in
  let result := findtext body "responseCode" TYPES_URN in
  ret (py_eq result (Some "IN_PROGRESS")).

Definition ex_reset (node : Node) : M bool :=
  let* id := lift (attr_value (Node_id node)) in
  let* request_elm :=
    ET_Element "resetServer" [("xmlns", TYPES_URN); ("id", id)] in
  let* body :=
    request_with_orgId_api_2 "server/resetServer" "POST" []
      (Some (tostring request_elm)) in
  let result := findtext body "responseCode" TYPES_URN in
  ret (py_eq result (Some "IN_PROGRESS")).

Definition ex_list_networks (location : option NodeLocation)
  : M (list DimensionDataNetwork) :=
  let params :=
    match location with
    | Some l => [("location", loc_id l)]
    | None => []
    end in
  let* response := request_with_orgId_api_1 "networkWithLocation" params in
  _to_networks response.

Definition ex_list_network_domains (location : option NodeLocation)
  : M (list DimensionDataNetworkDomain) :=
  let params :=
    match location with
    | Some l => [("datacenterId", loc_id l)]
    | None => []
    end in
  let* response :=
    request_with_orgId_api_2 "network/networkDomain" "GET" params None in
  _to_network_domains response.

Definition ex_list_vlans (location : option NodeLocation)
  (network_domain : option DimensionDataNetworkDomain)
  : M (list DimensionDataVlan) :=
  let params :=
    (match location with
     | Some l => [("datacenterId", loc_id l)]
     | None => []
     end ++
     match network_domain with
     | Some d => [("networkDomainId", nd_id d)]
     | None => []
     end)%list in
  let* response :=
    request_with_orgId_api_2 "network/vlan" "GET" params None in
  _to_vlans response.

Definition ex_get_location_by_id (id : option string)
  : M (option NodeLocation) :=
  if not_None id
  then
    let* locations := list_locations in
    let* location := lift (filter_id_0 id locations) in
    ret (Some location)
  else ret None.

(** The six lifecycle actions, each with the name of the provider's
    action it requests. *)
Definition lifecycle_actions : list (string * (Node -> M bool)) :=
  [("deleteServer", destroy_node);
   ("rebootServer", reboot_node);
   ("startServer", ex_start_node);
   ("shutdownServer", ex_shutdown_graceful);
   ("powerOffServer", ex_power_off);
   ("resetServer", ex_reset)].

End DimensionDataNodeDriver.


(** ** A sample provider

    Concrete documents and a concrete connection, in the shape of the
    provider's answers, on which the operations can be run. *)
Module Sample.

Definition urn : string := "urn:didata.com:api:cloud:types".

Definition q (e : string) : string := qualify urn e.

(** A plain serialiser (no escaping), standing for [ET.tostring]. *)
Fixpoint serialise (e : Element) : string :=
  let 'Elem t a x c := e in
  "<" ++ t
      ++ String.concat EmptyString
           (map (fun kv => " " ++ fst kv ++ "='" ++ snd kv ++ "'") a)
      ++ ">" ++ match x with Some s => s | None => EmptyString end
      ++ String.concat EmptyString (map serialise c)
      ++ "</" ++ t ++ ">".

Definition server (id started memoryGb : string) (net : list Element)
  : Element :=
  Elem (q "Server") [("id", id); ("datacenterId", "NA1")] None
    ([Elem (q "name") [] (Some "web1") [];
      Elem (q "description") [] None [];
      Elem (q "operatingSystem")
        [("id", "UBUNTU1264"); ("displayName", "UBUNTU12/64");
         ("family", "UNIX")] None [];
      Elem (q "cpuCount") [] (Some "2") [];
      Elem (q "memoryGb") [] (Some memoryGb) []]
     ++ net ++
     [Elem (q "started") [] (Some started) []])%list.

Definition nic (ip : string) : Element :=
  Elem (q "nic") [("id", "NIC1"); ("privateIpv4", ip)] None [].

Definition networkInfo (ip : string) : Element :=
  Elem (q "networkInfo") [("networkDomainId", "ND1")] None
    [Elem (q "primaryNic") [("id", "NIC2"); ("privateIpv4", ip)] None []].

Definition response (code : string) (info : list Element) : Element :=
  Elem (q "response") [] None
    ([Elem (q "operation") [] (Some "SERVER") [];
      Elem (q "responseCode") [] (Some code) []] ++ info)%list.

Definition datacenters : Element :=
  Elem (q "datacenters") [] None
    [Elem (q "datacenter") [("id", "NA1")] None
       [Elem (q "displayName") [] (Some "US - West") [];
        Elem (q "country") [] (Some "US") []];
     Elem (q "datacenter") [("id", "NA3")] None
       [Elem (q "displayName") [] (Some "US - East") [];
        Elem (q "country") [] (Some "US") []]].

Definition locations : list NodeLocation :=
  [mkLocation (Some "NA1") (Some "US - West") (Some "US");
   mkLocation (Some "NA3") (Some "US - East") (Some "US")].

(** The provider: it accepts every action on a server, deploys as
    server [SRV1], and knows that server and two data centres. *)
Definition respond (t : Trace) (r : Request) : result Element :=
  if String.eqb (req_action r) "server/deployServer"
  then OK (response "IN_PROGRESS"
             [Elem (q "info") [("name", "serverId"); ("value", "SRV1")]
                None []])
  else if String.eqb (req_action r) "server/server/SRV1"
  then OK (server "SRV1" "true" "4" [nic "10.0.0.9"])
  else if String.eqb (req_action r) "infrastructure/datacenter"
  then OK datacenters
  else if String.eqb (req_method r) "POST"
  then OK (response "IN_PROGRESS" [])
  else Raise (External "not found").

Definition get_and_check_auth (auth : option string)
  : result NodeAuthPassword :=
  match auth with
  | Some pw => OK (mkAuth pw false)
  | None => OK (mkAuth "generated" true)
  end.

Definition location : NodeLocation :=
  mkLocation (Some "NA1") (Some "US - West") (Some "US").

Definition network : DimensionDataNetwork :=
  mkNetwork (Some "NET1") (Some "net") None location None false
    default_status.

Definition network_domain : DimensionDataNetworkDomain :=
  mkNetworkDomain (Some "ND1") (Some "domain") None location default_status.

Definition vlan : DimensionDataVlan :=
  mkVlan (Some "VLAN1") (Some "vlan") None location default_status.

Definition image : NodeImage := mkImage (Some "IMG1") "Ubuntu" ∅.

Definition node : Node := mkNode (Some "SRV1") (Some "web1") RUNNING [] [] ∅.

Definition endpoints : gmap string string :=
  list_to_map [("dd-na", "api-na.dimensiondata.com");
               ("dd-eu", "api-eu.dimensiondata.com")].

End Sample.

(** ** A sample inventory

    A provider with servers, images, networks, network domains and VLANs
    to list. *)
Module Inventory.

Definition server_ns : string := "http://oec.api.opsource.net/schemas/server".

Definition network_ns : string :=
  "http://oec.api.opsource.net/schemas/network".

Definition servers : Element :=
  Elem (Sample.q "servers") [] None
    [Sample.server "SRV1" "true" "4" [Sample.nic "10.0.0.9"];
     Sample.server "SRV2" "false" "8" [Sample.networkInfo "10.0.1.5"]].

(** A server whose [networkInfo] has no [primaryNic], beside a [nic]. *)
Definition half_migrated : Element :=
  Sample.server "SRV3" "true" "4"
    [Elem (Sample.q "networkInfo") [("networkDomainId", "ND1")] None [];
     Sample.nic "10.0.0.9"].

Definition image (id location : string) : Element :=
  Elem (qualify server_ns "image") [("id", id); ("location", location)] None
    [Elem (qualify server_ns "name") [] (Some "RedHat 6 64-bit") [];
     Elem (qualify server_ns "cpuCount") [] (Some "2") []].

Definition images : Element :=
  Elem (qualify server_ns "images") [] None
    [image "IMG1" "NA1"; image "IMG2" "NA3"].

Definition networks : Element :=
  Elem (qualify network_ns "networks") [] None
    [Elem (qualify network_ns "network") [] None
       [Elem (qualify network_ns "id") [] (Some "NET1") [];
        Elem (qualify network_ns "name") [] (Some "test-net1") [];
        Elem (qualify network_ns "location") [] (Some "NA3") [];
        Elem (qualify network_ns "privateNet") [] (Some "10.162.1.0") [];
        Elem (qualify network_ns "multicast") [] (Some "false") []]].

Definition network_domains : Element :=
  Elem (Sample.q "networkDomains") [] None
    [Elem (Sample.q "networkDomain") [("id", "ND1"); ("datacenterId", "NA1")]
       None
       [Elem (Sample.q "name") [] (Some "domain") [];
        Elem (Sample.q "state") [] (Some "NORMAL") []]].

Definition vlans : Element :=
  Elem (Sample.q "vlans") [] None
    [Elem (Sample.q "vlan") [("id", "VLAN1"); ("datacenterId", "NA1")] None
       [Elem (Sample.q "name") [] (Some "vlan") []]].

Definition respond (t : Trace) (r : Request) : result Element :=
  if String.eqb (req_action r) "server/server" then OK servers
  else if String.eqb (req_action r) "base/imageWithDiskSpeed" then OK images
  else if String.eqb (req_action r) "infrastructure/datacenter"
  then OK Sample.datacenters
  else if String.eqb (req_action r) "networkWithLocation" then OK networks
  else if String.eqb (req_action r) "network/networkDomain"
  then OK network_domains
  else if String.eqb (req_action r) "network/vlan" then OK vlans
  else if String.eqb (req_action r) "server/deployServer"
  then OK (Sample.response "IN_PROGRESS" [])
  else Raise (External "not found").

End Inventory.

(** * Properties *)

Lemma py_eq_true (a b : option string) : py_eq a b = true <-> a = b.
Proof.
  destruct a as [x|], b as [y|]; simpl; try (split; congruence).
  rewrite String.eqb_eq. split; congruence.
Qed.

Lemma py_eq_false (a b : option string) : py_eq a b = false <-> a <> b.
Proof.
  rewrite <- py_eq_true. destruct (py_eq a b); split; congruence.
Qed.

Section Lifecycle.

Context (TYPES_URN : string) (tostring : Element -> string)
        (respond : Trace -> Request -> result Element).

(** C1: each of the six lifecycle actions, on a node with an id and
    answered by the connection with the document [body], returns a
    boolean that is true exactly when the text of [responseCode] in
    [body] is [IN_PROGRESS]; any other text, or no such field, gives
    false. *)
Theorem lifecycle_accepted_iff_in_progress :
  forall name op,
    In (name, op) (lifecycle_actions TYPES_URN tostring respond) ->
  forall node id t body,
    let attrib := [("xmlns", TYPES_URN); ("id", id)] in
    let request :=
      mkRequest orgId_api_2 ("server/" ++ name) "POST" []
        (Some (tostring (Elem name attrib None []))) in
    Node_id node = Some id ->
    respond (t ++ [Created name attrib])%list request = OK body ->
    exists b,
      op node t = (OK b, (t ++ [Created name attrib; Sent request])%list)
      /\ (b = true <->
          findtext body "responseCode" TYPES_URN = Some "IN_PROGRESS")
      /\ (b = false <->
          findtext body "responseCode" TYPES_URN <> Some "IN_PROGRESS").
Proof.
  intros name op Hin node id t body attrib request Hid Hbody.
  exists (py_eq (findtext body "responseCode" TYPES_URN) (Some "IN_PROGRESS")).
  split; [| split; [apply py_eq_true | apply py_eq_false]].
  unfold lifecycle_actions in Hin. simpl in Hin.
  subst attrib request.
  repeat (destruct Hin as [Hin | Hin];
          [ injection Hin as <- <-;
            unfold destroy_node, reboot_node, ex_start_node,
              ex_shutdown_graceful, ex_power_off, ex_reset,
              request_with_orgId_api_2, send, ET_Element, emit, bind,
              lift, ret;
            rewrite Hid; simpl;
            cbv [String.append] in Hbody |- *;
            rewrite Hbody, <- app_assoc; reflexivity
          | ]).
  destruct Hin.
Qed.

End Lifecycle.

(** The sample provider accepts the deletion of the sample node. *)
Lemma lifecycle_accepted_witness :
  exists b,
    destroy_node Sample.urn Sample.serialise Sample.respond Sample.node [] =
      (OK b,
       [Created "deleteServer" [("xmlns", Sample.urn); ("id", "SRV1")];
        Sent (mkRequest orgId_api_2 "server/deleteServer" "POST" []
                (Some (Sample.serialise
                         (Elem "deleteServer"
                            [("xmlns", Sample.urn); ("id", "SRV1")]
                            None []))))])
    /\ (b = true <->
        findtext (Sample.response "IN_PROGRESS" []) "responseCode" Sample.urn
        = Some "IN_PROGRESS")
    /\ (b = false <->
        findtext (Sample.response "IN_PROGRESS" []) "responseCode" Sample.urn
        <> Some "IN_PROGRESS").
Proof.
  apply (lifecycle_accepted_iff_in_progress
           Sample.urn Sample.serialise Sample.respond
           "deleteServer" _ (or_introl eq_refl)
           Sample.node "SRV1" [] (Sample.response "IN_PROGRESS" []));
    reflexivity.
Defined.

(** The loop of [create_node] over the [info] elements keeps the value of
    the last one named [serverId]. *)
Lemma fold_serverId (infos : list Element) (init : option string) :
  fold_left
    (fun node_id info =>
       if py_eq (get info "name") (Some "serverId")
       then get info "value" else node_id)
    infos init
  = match last (List.filter
                  (fun info => py_eq (get info "name") (Some "serverId"))
                  infos) with
    | Some info => get info "value"
    | None => init
    end.
Proof.
  induction infos as [| info infos IH] using rev_ind; [reflexivity |].
  rewrite fold_left_app, List.filter_app. simpl.
  destruct (py_eq (get info "name") (Some "serverId")).
  - now rewrite last_snoc.
  - now rewrite app_nil_r.
Qed.

Section Deploy.

Context (TYPES_URN : string) (tostring : Element -> string)
        (respond : Trace -> Request -> result Element)
        {Auth : Type} (_get_and_check_auth : Auth -> result NodeAuthPassword).

(** C2: when [ex_network] is not a [DimensionDataNetwork] and
    [ex_network_domain] is not a [DimensionDataNetworkDomain],
    [create_node] raises and leaves the trace as it found it: no request
    document has been started and no request has been sent.  The
    exception is [ValueError], unless the inherited credential check has
    already refused the [auth] argument with an exception of its own. *)
Theorem create_node_rejects_without_network :
  forall name image auth ex_description ex_network ex_network_domain ex_vlan
         ex_is_started t,
    is_network ex_network = false ->
    is_network_domain ex_network_domain = false ->
    exists e,
      create_node TYPES_URN tostring respond _get_and_check_auth
        name image auth ex_description ex_network ex_network_domain
        ex_vlan ex_is_started t = (Raise e, t)
      /\ (forall auth_obj,
            _get_and_check_auth auth = OK auth_obj -> e = ValueError)
      /\ (forall e', _get_and_check_auth auth = Raise e' -> e = e').
Proof.
  intros name image auth ex_description ex_network ex_network_domain ex_vlan
    ex_is_started t Hnet Hdom.
  unfold create_node, bind, lift, raise.
  rewrite Hnet, Hdom.
  destruct (_get_and_check_auth auth) as [auth_obj | e0]; simpl.
  - exists ValueError. repeat split; congruence.
  - exists e0. repeat split; congruence.
Qed.

(** C7: [create_node] with a simple network creates a [deployServer]
    document that holds a [name] element with the name, an [imageId]
    element with the image id, a [start] element with [true] or [false]
    for the start flag, and a [network] element holding a [networkId]
    element with the id of the network, and sends it.  When the answer
    holds an [info] element named [serverId], the value of the last such
    element is the id with which the node is then fetched, and that node
    is the result. *)
Theorem create_node_simple_network :
  forall name image auth auth_obj ex_description net ex_vlan
         (ex_is_started : bool) t,
    let server_elm :=
      Elem "deployServer" [("xmlns", TYPES_URN)] None
        [Elem "name" [] (Some name) [];
         Elem "description" [] (Some ex_description) [];
         Elem "imageId" [] (image_id image) [];
         Elem "start" [] (Some (if ex_is_started then "true" else "false")) [];
         Elem "administratorPassword" [] (Some (password auth_obj)) [];
         Elem "network" [] None [Elem "networkId" [] (net_id net) []]] in
    let deploy :=
      mkRequest orgId_api_2 "server/deployServer" "POST" []
        (Some (tostring server_elm)) in
    let t1 := (t ++ [Created "deployServer" [("xmlns", TYPES_URN)]])%list in
    let run :=
      create_node TYPES_URN tostring respond _get_and_check_auth
        name image auth ex_description (PyNetwork net) PyNone
        ex_vlan ex_is_started t in
    _get_and_check_auth auth = OK auth_obj ->
    (exists rest, snd run = (t1 ++ Sent deploy :: rest)%list)
    /\ forall response info,
        respond t1 deploy = OK response ->
        last (List.filter
                (fun info => py_eq (get info "name") (Some "serverId"))
                (findall response "info" TYPES_URN)) = Some info ->
        let fetch :=
          mkRequest orgId_api_2
            ("server/server/" ++ py_str (get info "value")) "GET" [] None in
        run =
          ((let? object := respond (t1 ++ [Sent deploy])%list fetch in
            let? node := _to_node TYPES_URN object in
            OK (if generated auth_obj
                then set_extra node "password" (VStr (password auth_obj))
                else node)),
           (t1 ++ [Sent deploy; Sent fetch])%list).
Proof.
  intros name image auth auth_obj ex_description net ex_vlan ex_is_started t
    server_elm deploy t1 run Hauth.
  subst run. unfold create_node, bind, lift.
  rewrite Hauth. simpl.
  unfold request_with_orgId_api_2, send, ET_Element, emit, bind, ret.
  simpl. unfold str_bool_lower. fold server_elm. fold deploy. fold t1.
  split.
  - destruct (respond t1 deploy) as [response | e]; simpl.
    + unfold ex_get_node_by_id, request_with_orgId_api_2, send, bind, lift.
      match goal with
      | |- context [respond ?tr ?rq] => destruct (respond tr rq) as [object | e]
      end; simpl.
      * destruct (_to_node TYPES_URN object); simpl;
          rewrite <- app_assoc; simpl; eauto.
      * rewrite <- app_assoc; simpl; eauto.
    + eauto.
  - intros response info Hresp Hlast.
    rewrite Hresp. simpl.
    unfold ex_get_node_by_id, request_with_orgId_api_2, send, bind, lift.
    rewrite fold_serverId, Hlast.
    destruct (respond (t1 ++ [Sent deploy])%list _) as [object | e]; simpl.
    + destruct (_to_node TYPES_URN object); simpl;
        rewrite <- app_assoc; reflexivity.
    + rewrite <- app_assoc; reflexivity.
Qed.

(** C9: [create_node] with both a [DimensionDataNetwork] and a
    [DimensionDataNetworkDomain] (with an id) and a VLAN is not refused:
    the [deployServer] document it creates and sends holds both the
    [network] element with its [networkId] and the [networkInfo] element
    with its [primaryNic] and [vlanId]. *)
Theorem create_node_both_network_modes :
  forall name image auth auth_obj ex_description net domain domain_id vlan
         (ex_is_started : bool) t,
    let server_elm :=
      Elem "deployServer" [("xmlns", TYPES_URN)] None
        [Elem "name" [] (Some name) [];
         Elem "description" [] (Some ex_description) [];
         Elem "imageId" [] (image_id image) [];
         Elem "start" [] (Some (if ex_is_started then "true" else "false")) [];
         Elem "administratorPassword" [] (Some (password auth_obj)) [];
         Elem "network" [] None [Elem "networkId" [] (net_id net) []];
         Elem "networkInfo" [("networkDomainId", domain_id)] None
           [Elem "primaryNic" [] None
              [Elem "vlanId" [] (vlan_id vlan) []]]] in
    let deploy :=
      mkRequest orgId_api_2 "server/deployServer" "POST" []
        (Some (tostring server_elm)) in
    let t1 := (t ++ [Created "deployServer" [("xmlns", TYPES_URN)]])%list in
    let run :=
      create_node TYPES_URN tostring respond _get_and_check_auth
        name image auth ex_description (PyNetwork net)
        (PyNetworkDomain domain) (PyVlan vlan) ex_is_started t in
    _get_and_check_auth auth = OK auth_obj ->
    nd_id domain = Some domain_id ->
    (exists rest, snd run = (t1 ++ Sent deploy :: rest)%list)
    /\ (forall e, respond t1 deploy = Raise e ->
          run = (Raise e, (t1 ++ [Sent deploy])%list))
    /\ (forall response, respond t1 deploy = OK response ->
          exists fetch,
            run =
              ((let? object := respond (t1 ++ [Sent deploy])%list fetch in
                let? node := _to_node TYPES_URN object in
                OK (if generated auth_obj
                    then set_extra node "password" (VStr (password auth_obj))
                    else node)),
               (t1 ++ [Sent deploy; Sent fetch])%list)).
Proof.
  intros name image auth auth_obj ex_description net domain domain_id vlan
    ex_is_started t server_elm deploy t1 run Hauth Hid.
  subst run. unfold create_node, bind, lift.
  rewrite Hauth. simpl. rewrite Hid. simpl.
  unfold request_with_orgId_api_2, send, ET_Element, emit, bind, ret.
  simpl. unfold str_bool_lower. fold server_elm. fold deploy. fold t1.
  destruct (respond t1 deploy) as [response | e] eqn:Hresp; simpl.
  - unfold ex_get_node_by_id, request_with_orgId_api_2, send, bind, lift.
    match goal with
    | |- context [respond (t1 ++ [Sent deploy])%list ?rq] => set (fetch := rq)
    end.
    destruct (respond (t1 ++ [Sent deploy])%list fetch) as [object | e]
      eqn:Hfetch; simpl;
      [destruct (_to_node TYPES_URN object) eqn:Hnode; simpl |];
      rewrite <- app_assoc; simpl;
      (split; [eauto | split; [discriminate |]]);
      intros response' [= <-]; exists fetch;
      rewrite Hfetch; simpl; rewrite ?Hnode; reflexivity.
  - split; [eauto | split; [intros e' [= <-]; reflexivity | discriminate]].
Qed.

End Deploy.

(** On the sample provider, a deployment with neither a network nor a
    network domain of the right class is refused with [ValueError] and an
    empty trace. *)
Lemma create_node_rejects_without_network_witness :
  exists e,
    create_node Sample.urn Sample.serialise Sample.respond
      Sample.get_and_check_auth "web1" Sample.image (Some "secret")
      "web server" PyNone (PyOther (Some (Some "ND1"))) PyNone true []
    = (Raise e, [])
    /\ (forall auth_obj,
          Sample.get_and_check_auth (Some "secret") = OK auth_obj ->
          e = ValueError)
    /\ (forall e',
          Sample.get_and_check_auth (Some "secret") = Raise e' -> e = e').
Proof.
  exact (create_node_rejects_without_network
           Sample.urn Sample.serialise Sample.respond
           Sample.get_and_check_auth "web1" Sample.image (Some "secret")
           "web server" PyNone (PyOther (Some (Some "ND1"))) PyNone true []
           eq_refl eq_refl).
Defined.

(** The scenario of the specification: deploying [web1] from image [IMG1]
    on network [NET1], started, sends the deployment and then fetches
    server [SRV1]. *)
Lemma create_node_simple_network_witness :
  map req_action
    (sent (snd (create_node Sample.urn Sample.serialise Sample.respond
                  Sample.get_and_check_auth "web1" Sample.image
                  (Some "secret") "web server" (PyNetwork Sample.network)
                  PyNone PyNone true [])))
  = ["server/deployServer"; "server/server/SRV1"].
Proof.
  rewrite (proj2 (create_node_simple_network
                    Sample.urn Sample.serialise Sample.respond
                    Sample.get_and_check_auth "web1" Sample.image
                    (Some "secret") (mkAuth "secret" false) "web server"
                    Sample.network PyNone true [] eq_refl)
                 (Sample.response "IN_PROGRESS"
                    [Elem (Sample.q "info")
                       [("name", "serverId"); ("value", "SRV1")] None []])
                 (Elem (Sample.q "info")
                    [("name", "serverId"); ("value", "SRV1")] None [])
                 eq_refl eq_refl).
  reflexivity.
Defined.

(** On the sample provider, a deployment with both a network and a
    network domain is sent. *)
Lemma create_node_both_network_modes_witness :
  head
    (sent (snd (create_node Sample.urn Sample.serialise Sample.respond
                  Sample.get_and_check_auth "web1" Sample.image
                  (Some "secret") "web server" (PyNetwork Sample.network)
                  (PyNetworkDomain Sample.network_domain)
                  (PyVlan Sample.vlan) true [])))
  = Some (mkRequest orgId_api_2 "server/deployServer" "POST" []
            (Some (Sample.serialise
                     (Elem "deployServer" [("xmlns", Sample.urn)] None
                        [Elem "name" [] (Some "web1") [];
                         Elem "description" [] (Some "web server") [];
                         Elem "imageId" [] (Some "IMG1") [];
                         Elem "start" [] (Some "true") [];
                         Elem "administratorPassword" [] (Some "secret") [];
                         Elem "network" [] None
                           [Elem "networkId" [] (Some "NET1") []];
                         Elem "networkInfo" [("networkDomainId", "ND1")] None
                           [Elem "primaryNic" [] None
                              [Elem "vlanId" [] (Some "VLAN1") []]]])))).
Proof.
  destruct (proj1 (create_node_both_network_modes
                     Sample.urn Sample.serialise Sample.respond
                     Sample.get_and_check_auth "web1" Sample.image
                     (Some "secret") (mkAuth "secret" false) "web server"
                     Sample.network Sample.network_domain "ND1" Sample.vlan
                     true [] eq_refl eq_refl)) as [rest Hrest].
  rewrite Hrest. reflexivity.
Defined.

(** *** Namespaced paths *)

Lemma append_inj_l (p a b : string) : p ++ a = p ++ b -> a = b.
Proof.
  induction p as [| c p IH]; simpl; [trivial |].
  intros [= H]. auto.
Qed.

Lemma qualify_inj (namespace a b : string) :
  qualify namespace a = qualify namespace b -> a = b.
Proof.
  unfold qualify. destruct namespace as [| c namespace]; [trivial |].
  intros H.
  apply (append_inj_l "{") in H.
  apply (append_inj_l (String c namespace)) in H.
  now apply (append_inj_l "}") in H.
Qed.

Lemma get_remove_children (t : string) (e : Element) (key : string) :
  get (remove_children t e) key = get e key.
Proof. now destruct e. Qed.

(** Removing the children tagged [t] changes no path whose first step is
    another tag. *)
Lemma iterfind_remove_children (t h : string) (rest : list string)
  (e : Element) :
  h <> t ->
  iterfind (remove_children t e) (h :: rest) = iterfind e (h :: rest).
Proof.
  intros Hne. unfold iterfind. simpl. f_equal.
  destruct e as [g a x c]. simpl. f_equal.
  induction c as [| child c IH]; simpl; [reflexivity |].
  destruct (String.eqb_spec (tag child) t) as [-> | Hc]; simpl.
  - destruct (String.eqb_spec t h) as [-> | _]; [contradiction | exact IH].
  - destruct (String.eqb (tag child) h); now rewrite IH.
Qed.

Lemma ET_find_remove_children (namespace t xpath h : string)
  (rest : list string) (e : Element) :
  split_slash xpath = h :: rest ->
  h <> t ->
  ET_find (remove_children (qualify namespace t) e) (fixxpath xpath namespace)
  = ET_find e (fixxpath xpath namespace).
Proof.
  intros Hsplit Hne. unfold ET_find, fixxpath. rewrite Hsplit. simpl.
  rewrite iterfind_remove_children; [reflexivity |].
  intros H. now apply qualify_inj in H.
Qed.

Lemma findtext_remove_children (namespace t xpath h : string)
  (rest : list string) (e : Element) :
  split_slash xpath = h :: rest ->
  h <> t ->
  findtext (remove_children (qualify namespace t) e) xpath namespace
  = findtext e xpath namespace.
Proof.
  intros Hsplit Hne. unfold findtext, ET_findtext.
  now rewrite (ET_find_remove_children _ _ _ _ _ _ Hsplit Hne).
Qed.

(** A path through an element that is not there finds nothing. *)
Lemma ET_find_below_None (h : string) (rest : list string) (e : Element) :
  ET_find e [h] = None -> ET_find e (h :: rest) = None.
Proof.
  unfold ET_find, iterfind. cbn [fold_left].
  destruct (child_step h [e]); [intros _ | intros [=]].
  induction rest as [| s rest IH]; [reflexivity | exact IH].
Qed.

Section Mapping.

Context (TYPES_URN : string).

(** What a successful [_to_node] has gone through: both numbers parsed,
    the [operatingSystem] element found, and the private IP taken from the
    shape that [networkInfo] selects. *)
Lemma _to_node_OK (element : Element) (n : Node) :
  _to_node TYPES_URN element = OK n ->
  exists cpuCount memoryGb private_ip,
    py_int (findtext element "cpuCount" TYPES_URN) = OK cpuCount
    /\ py_int (findtext element "memoryGb" TYPES_URN) = OK memoryGb
    /\ (if not_None (ET_find element (fixxpath "networkInfo" TYPES_URN))
        then find_get
               (ET_find element (fixxpath "networkInfo/primaryNic" TYPES_URN))
               "privateIpv4"
        else find_get (ET_find element (fixxpath "nic" TYPES_URN))
                      "privateIpv4") = OK private_ip
    /\ Node_state n =
         (if py_eq (findtext element "started" TYPES_URN) (Some "true")
          then RUNNING else TERMINATED)
    /\ private_ips n = option_list private_ip
    /\ Node_extra n !! "cpuCount" = Some (VInt cpuCount)
    /\ Node_extra n !! "memoryMb" = Some (VInt (memoryGb * 1024)).
Proof.
  unfold _to_node, result_bind. intros H.
  destruct (if not_None (ET_find element (fixxpath "networkInfo" TYPES_URN))
            then find_get
                   (ET_find element (fixxpath "networkInfo" TYPES_URN))
                   "networkDomainId"
            else OK None); [| discriminate].
  destruct (py_int (findtext element "cpuCount" TYPES_URN)) as [cpuCount |];
    [| discriminate].
  destruct (py_int (findtext element "memoryGb" TYPES_URN)) as [memoryGb |];
    [| discriminate].
  destruct (find_get
              (ET_find element (fixxpath "operatingSystem" TYPES_URN)) "id");
    [| discriminate].
  destruct (find_get
              (ET_find element (fixxpath "operatingSystem" TYPES_URN))
              "family"); [| discriminate].
  destruct (find_get
              (ET_find element (fixxpath "operatingSystem" TYPES_URN))
              "displayName"); [| discriminate].
  destruct (if not_None (ET_find element (fixxpath "networkInfo" TYPES_URN))
            then _ else _) as [private_ip |]; [| discriminate].
  injection H as <-.
  exists cpuCount, memoryGb, private_ip.
  repeat split; reflexivity.
Qed.


(** When [_to_node] returns: both numbers parse, there is an
    [operatingSystem] child, and the shape that [networkInfo] selects for
    the private IP is there. *)
Lemma _to_node_returns (element : Element) (cpuCount memoryGb : Z)
  (operatingSystem nic : Element) :
  py_int (findtext element "cpuCount" TYPES_URN) = OK cpuCount ->
  py_int (findtext element "memoryGb" TYPES_URN) = OK memoryGb ->
  ET_find element (fixxpath "operatingSystem" TYPES_URN)
  = Some operatingSystem ->
  (if not_None (ET_find element (fixxpath "networkInfo" TYPES_URN))
   then ET_find element (fixxpath "networkInfo/primaryNic" TYPES_URN)
   else ET_find element (fixxpath "nic" TYPES_URN)) = Some nic ->
  exists n, _to_node TYPES_URN element = OK n.
Proof.
  intros Hcpu Hmem Hos Hnic. unfold _to_node.
  rewrite Hcpu, Hmem, Hos. simpl.
  destruct (ET_find element (fixxpath "networkInfo" TYPES_URN)); simpl in *;
    rewrite Hnic; simpl; eauto.
Qed.

(** C3: a node that [_to_node] returns has its private IP from exactly one
    of the two shapes.  With a [networkInfo] child it is the [privateIpv4]
    attribute of [networkInfo/primaryNic], and the [nic] children are not
    looked at: the mapping is the same without them.  Without a
    [networkInfo] child it is the [privateIpv4] attribute of [nic], and
    there is no [networkInfo/primaryNic] that could have been read. *)
Theorem private_ip_from_one_shape :
  forall element : Element,
    (forall n, _to_node TYPES_URN element = OK n ->
       (ET_find element (fixxpath "networkInfo" TYPES_URN) <> None ->
        exists primaryNic,
          ET_find element (fixxpath "networkInfo/primaryNic" TYPES_URN)
          = Some primaryNic
          /\ private_ips n = option_list (get primaryNic "privateIpv4"))
       /\ (ET_find element (fixxpath "networkInfo" TYPES_URN) = None ->
           exists nic,
             ET_find element (fixxpath "nic" TYPES_URN) = Some nic
             /\ private_ips n = option_list (get nic "privateIpv4")))
    /\ (ET_find element (fixxpath "networkInfo" TYPES_URN) <> None ->
        _to_node TYPES_URN (remove_children (qualify TYPES_URN "nic") element)
        = _to_node TYPES_URN element)
    /\ (ET_find element (fixxpath "networkInfo" TYPES_URN) = None ->
        ET_find element (fixxpath "networkInfo/primaryNic" TYPES_URN) = None).
Proof.
  intros element. split; [| split].
  - intros n Hn.
    destruct (_to_node_OK element n Hn)
      as (cpuCount & memoryGb & private_ip & _ & _ & Hip & _ & Hips & _).
    rewrite Hips. split; intros Hinfo.
    + destruct (ET_find element (fixxpath "networkInfo" TYPES_URN));
        [| contradiction].
      simpl in Hip.
      destruct (ET_find element (fixxpath "networkInfo/primaryNic" TYPES_URN))
        as [primaryNic |]; [| discriminate].
      injection Hip as <-. eauto.
    + rewrite Hinfo in Hip. simpl in Hip.
      destruct (ET_find element (fixxpath "nic" TYPES_URN)) as [nic |];
        [| discriminate].
      injection Hip as <-. eauto.
  - intros Hinfo. unfold _to_node.
    rewrite !get_remove_children.
    repeat
      (erewrite findtext_remove_children by (reflexivity || discriminate)).
    repeat match goal with
    | |- context [ET_find (remove_children _ _) (fixxpath ?x _)] =>
        lazymatch x with
        | "nic" => fail
        | _ => rewrite (ET_find_remove_children TYPES_URN "nic" x _ _ element
                          eq_refl) by discriminate
        end
    end.
    destruct (ET_find element (fixxpath "networkInfo" TYPES_URN));
      [reflexivity | contradiction].
  - intros Hinfo.
    exact (ET_find_below_None (qualify TYPES_URN "networkInfo")
             [qualify TYPES_URN "primaryNic"] element Hinfo).
Qed.

(** C4: the state of a node that [_to_node] returns is decided by the
    text of [started] alone: [RUNNING] when it is [true], [TERMINATED] for
    any other text and when there is none; no other state comes out. *)
Theorem node_state_from_started :
  forall element n,
    _to_node TYPES_URN element = OK n ->
    (findtext element "started" TYPES_URN = Some "true" ->
     Node_state n = RUNNING)
    /\ (findtext element "started" TYPES_URN <> Some "true" ->
        Node_state n = TERMINATED)
    /\ (Node_state n = RUNNING \/ Node_state n = TERMINATED).
Proof.
  intros element n Hn.
  destruct (_to_node_OK element n Hn)
    as (_ & _ & _ & _ & _ & _ & Hstate & _).
  rewrite Hstate.
  destruct (py_eq (findtext element "started" TYPES_URN) (Some "true"))
    eqn:Hstarted.
  - apply py_eq_true in Hstarted. repeat split; auto. congruence.
  - apply py_eq_false in Hstarted. repeat split; auto. congruence.
Qed.

(** C5: in a node that [_to_node] returns, [cpuCount] is the integer read
    from the text of [cpuCount], and [memoryMb] is the integer read from
    the text of [memoryGb] times 1024; a [memoryGb] of [4] gives 4096. *)
Theorem node_cpu_count_and_memory :
  forall element n,
    _to_node TYPES_URN element = OK n ->
    exists cpuCount memoryGb,
      py_int (findtext element "cpuCount" TYPES_URN) = OK cpuCount
      /\ py_int (findtext element "memoryGb" TYPES_URN) = OK memoryGb
      /\ Node_extra n !! "cpuCount" = Some (VInt cpuCount)
      /\ Node_extra n !! "memoryMb" = Some (VInt (memoryGb * 1024))
      /\ (findtext element "memoryGb" TYPES_URN = Some "4" ->
          Node_extra n !! "memoryMb" = Some (VInt 4096)).
Proof.
  intros element n Hn.
  destruct (_to_node_OK element n Hn)
    as (cpuCount & memoryGb & _ & Hcpu & Hmem & _ & _ & _ & Hc & Hm).
  exists cpuCount, memoryGb. repeat split; auto.
  intros H4. rewrite H4 in Hmem. injection Hmem as <-. exact Hm.
Qed.

End Mapping.

(** A server with both a [networkInfo] and a [nic] child is mapped, and
    its private IP is the one of [networkInfo/primaryNic]. *)
Lemma private_ip_from_one_shape_witness :
  exists n,
    _to_node Sample.urn
      (Sample.server "SRV1" "true" "4"
         [Sample.networkInfo "10.0.1.5"; Sample.nic "10.0.0.9"]) = OK n
    /\ private_ips n = ["10.0.1.5"].
Proof.
  eexists. split; [reflexivity |].
  lazymatch goal with
  | |- private_ips ?n = _ =>
      destruct (proj1 (proj1 (private_ip_from_one_shape Sample.urn
                                (Sample.server "SRV1" "true" "4"
                                   [Sample.networkInfo "10.0.1.5";
                                    Sample.nic "10.0.0.9"]))
                             n eq_refl))
        as (primaryNic & Hfind & Hips); [discriminate |]
  end.
  injection Hfind as <-. exact Hips.
Defined.

(** A started server is mapped to a running node. *)
Lemma node_state_from_started_witness :
  exists n,
    _to_node Sample.urn
      (Sample.server "SRV1" "true" "4" [Sample.nic "10.0.0.9"]) = OK n
    /\ Node_state n = RUNNING.
Proof.
  eexists. split; [reflexivity |].
  lazymatch goal with
  | |- Node_state ?n = _ =>
      exact (proj1 (node_state_from_started Sample.urn
                      (Sample.server "SRV1" "true" "4" [Sample.nic "10.0.0.9"])
                      n eq_refl) eq_refl)
  end.
Defined.

(** A server with a [memoryGb] of [4] is mapped to a node with 4096 MB. *)
Lemma node_cpu_count_and_memory_witness :
  exists n,
    _to_node Sample.urn
      (Sample.server "SRV1" "false" "4" [Sample.nic "10.0.0.9"]) = OK n
    /\ Node_extra n !! "memoryMb" = Some (VInt 4096).
Proof.
  eexists. split; [reflexivity |].
  lazymatch goal with
  | |- Node_extra ?n !! _ = _ =>
      destruct (node_cpu_count_and_memory Sample.urn
                  (Sample.server "SRV1" "false" "4" [Sample.nic "10.0.0.9"])
                  n eq_refl)
        as (cpuCount & memoryGb & _ & _ & _ & _ & H4)
  end.
  exact (H4 eq_refl).
Defined.

(** *** Locations *)

(** The filter-and-index expression returns the first location with the
    id, and raises [IndexError] when there is none. *)
Lemma filter_id_0_spec (location_id : option string)
  (locations : list NodeLocation) :
  match filter_id_0 location_id locations with
  | OK l =>
      exists before after,
        locations = (before ++ l :: after)%list
        /\ loc_id l = location_id
        /\ Forall (fun x => loc_id x <> location_id) before
  | Raise e =>
      e = IndexError /\ Forall (fun x => loc_id x <> location_id) locations
  end.
Proof.
  unfold filter_id_0.
  induction locations as [| x locations IH]; simpl.
  - split; [reflexivity | constructor].
  - destruct (py_eq (loc_id x) location_id) eqn:Hx.
    + apply py_eq_true in Hx.
      exists [], locations. repeat split; [exact Hx | constructor].
    + apply py_eq_false in Hx.
      destruct (List.filter _ locations) as [| l rest].
      * destruct IH as [He Hall]. split; [exact He | now constructor].
      * destruct IH as (before & after & -> & Hid & Hall).
        exists (x :: before), after. repeat split; [exact Hid |].
        now constructor.
Qed.

Section Locations.

Context (TYPES_URN SERVER_NS : string)
        (respond : Trace -> Request -> result Element).

(** C6, as the code has it: resolving an id against a list of locations
    gives the first location of the list with that id when there is one,
    which is the only one when the id is not repeated, and raises
    [IndexError] when there is none.  [_to_base_image] and
    [ex_get_location_by_id] resolve in this way and let the [IndexError]
    through. *)
Theorem location_lookup_first_or_IndexError :
  forall (location_id : option string) (locations : list NodeLocation),
    ((exists l, In l locations /\ loc_id l = location_id) ->
     exists l before after,
       filter_id_0 location_id locations = OK l
       /\ locations = (before ++ l :: after)%list
       /\ loc_id l = location_id
       /\ Forall (fun x => loc_id x <> location_id) before)
    /\ (forall l,
          In l locations -> loc_id l = location_id ->
          (forall l', In l' locations -> loc_id l' = location_id -> l' = l) ->
          filter_id_0 location_id locations = OK l)
    /\ ((forall l, In l locations -> loc_id l <> location_id) ->
        filter_id_0 location_id locations = Raise IndexError)
    /\ (forall element,
          get element "location" = location_id ->
          (forall l, In l locations -> loc_id l <> location_id) ->
          _to_base_image SERVER_NS element locations = Raise IndexError)
    /\ (forall id t object,
          location_id = Some id ->
          respond t (mkRequest orgId_api_2 "infrastructure/datacenter" "GET"
                       [] None) = OK object ->
          locations = _to_locations TYPES_URN object ->
          ex_get_location_by_id TYPES_URN respond location_id t
          = (match filter_id_0 location_id locations with
             | OK l => OK (Some l)
             | Raise e => Raise e
             end,
             (t ++ [Sent (mkRequest orgId_api_2 "infrastructure/datacenter"
                            "GET" [] None)])%list)).
Proof.
  intros location_id locations.
  pose proof (filter_id_0_spec location_id locations) as Hspec.
  assert (Hnone : (forall l, In l locations -> loc_id l <> location_id) ->
                  filter_id_0 location_id locations = Raise IndexError).
  { intros Hno.
    destruct (filter_id_0 location_id locations) as [l | e].
    - destruct Hspec as (before & after & -> & Hid & _).
      exfalso. apply (Hno l); [| exact Hid].
      apply in_or_app. right. now left.
    - destruct Hspec as [-> _]. reflexivity. }
  assert (Hsome : (exists l, In l locations /\ loc_id l = location_id) ->
                  exists l before after,
                    filter_id_0 location_id locations = OK l
                    /\ locations = (before ++ l :: after)%list
                    /\ loc_id l = location_id
                    /\ Forall (fun x => loc_id x <> location_id) before).
  { intros (l & Hin & Hid).
    destruct (filter_id_0 location_id locations) as [l0 | e].
    - destruct Hspec as (before & after & Heq & Hid0 & Hall).
      exists l0, before, after. auto.
    - destruct Hspec as [_ Hall].
      rewrite Forall_forall in Hall.
      exfalso. apply (Hall l); [| exact Hid].
      now apply list_elem_of_In. }
  split; [exact Hsome | split; [| split; [exact Hnone | split]]].
  - intros l Hin Hid Hunique.
    destruct Hsome as (l0 & before & after & Hrun & Heq & Hid0 & _);
      [now exists l |].
    rewrite Hrun. f_equal. apply Hunique; [| exact Hid0].
    rewrite Heq. apply in_or_app. right. now left.
  - intros element Hget Hno. unfold _to_base_image.
    rewrite Hget, (Hnone Hno). reflexivity.
  - intros id t object -> Hobject ->.
    unfold ex_get_location_by_id, list_locations, request_with_orgId_api_2,
      send, bind, lift, ret. simpl.
    rewrite Hobject.
    destruct (filter_id_0 (Some id) (_to_locations TYPES_URN object));
      reflexivity.
Qed.

(** C10: [ex_get_location_by_id(None)] returns [None] and leaves the trace
    as it found it; with an id, the one thing it does is to ask for the
    list of data centres. *)
Theorem ex_get_location_by_id_None :
  forall t : Trace,
    ex_get_location_by_id TYPES_URN respond None t = (OK None, t)
    /\ forall id,
        snd (ex_get_location_by_id TYPES_URN respond (Some id) t)
        = (t ++ [Sent (mkRequest orgId_api_2 "infrastructure/datacenter"
                         "GET" [] None)])%list.
Proof.
  intros t. split; [reflexivity |].
  intros id.
  unfold ex_get_location_by_id, list_locations, request_with_orgId_api_2,
    send, bind, lift, ret. simpl.
  destruct (respond t _) as [object | e]; simpl; [| reflexivity].
  destruct (filter_id_0 (Some id) (_to_locations TYPES_URN object));
    reflexivity.
Qed.

End Locations.

(** On the sample provider, an id in no data centre makes the lookup raise
    [IndexError] where C6 has a not-found result; and of two locations
    with one id it is the first that is returned. *)
Lemma location_lookup_no_match_raises :
  (forall l, In l Sample.locations -> loc_id l <> Some "NA9")
  /\ filter_id_0 (Some "NA9") Sample.locations = Raise IndexError
  /\ ex_get_location_by_id Sample.urn Sample.respond (Some "NA9") []
     = (Raise IndexError,
        [Sent (mkRequest orgId_api_2 "infrastructure/datacenter" "GET"
                 [] None)])
  /\ filter_id_0 (Some "NA1")
       [mkLocation (Some "NA1") (Some "US - West") (Some "US");
        mkLocation (Some "NA1") (Some "US - East") (Some "US")]
     = OK (mkLocation (Some "NA1") (Some "US - West") (Some "US")).
Proof.
  repeat split.
  intros l [<- | [<- | []]]; discriminate.
Qed.

(** On the sample provider, the data centre [NA3] is found. *)
Lemma location_lookup_witness :
  exists l before after,
    filter_id_0 (Some "NA3") Sample.locations = OK l
    /\ Sample.locations = (before ++ l :: after)%list
    /\ loc_id l = Some "NA3"
    /\ Forall (fun x => loc_id x <> Some "NA3") before.
Proof.
  apply (proj1 (location_lookup_first_or_IndexError
                  Sample.urn Sample.urn Sample.respond
                  (Some "NA3") Sample.locations)).
  exists (mkLocation (Some "NA3") (Some "US - East") (Some "US")).
  split; [right; left |]; reflexivity.
Defined.

Section Construction.

Context {Endpoint : Type} (API_ENDPOINTS : gmap string Endpoint)
        (NodeDriver__init__ : Driver Endpoint -> string -> M unit).

(** C8: with a region that is no key of [API_ENDPOINTS], construction
    raises [ValueError] at once: the trace is as before and the inherited
    constructor has not run.  With a region that is a key, the endpoint
    stored under it becomes [selected_region], and the inherited
    constructor runs with it. *)
Theorem init_region :
  forall (region : string) (t : Trace),
    (region ∉ dom API_ENDPOINTS ->
     __init__ API_ENDPOINTS NodeDriver__init__ region t
     = (Raise ValueError, t))
    /\ (region ∈ dom API_ENDPOINTS ->
        exists endpoint,
          API_ENDPOINTS !! region = Some endpoint
          /\ __init__ API_ENDPOINTS NodeDriver__init__ region t
             = (let (r, t') :=
                  NodeDriver__init__ (mkDriver endpoint) region t in
                (match r with
                 | OK _ => OK (mkDriver endpoint)
                 | Raise e => Raise e
                 end, t'))
          /\ forall self t',
              __init__ API_ENDPOINTS NodeDriver__init__ region t
              = (OK self, t') ->
              selected_region self = endpoint).
Proof.
  intros region t. unfold __init__, bind, lift, raise, ret, getitem. split.
  - intros Hout. now rewrite bool_decide_eq_true_2.
  - intros Hin. rewrite bool_decide_eq_false_2 by (intros H; now apply H).
    apply elem_of_dom in Hin as [endpoint Hep].
    exists endpoint. rewrite Hep. simpl.
    destruct (NodeDriver__init__ (mkDriver endpoint) region t)
      as [[[] | e] t'']; repeat split; try discriminate.
    now intros self t' [= <- _].
Qed.

End Construction.

(** With the sample table of endpoints, an unknown region is refused. *)
Lemma init_region_witness :
  __init__ Sample.endpoints (fun _ _ => ret tt) "dd-mars" []
  = (Raise ValueError, []).
Proof.
  apply (proj1 (init_region Sample.endpoints (fun _ _ => ret tt)
                  "dd-mars" [])).
  apply not_elem_of_dom. reflexivity.
Defined.

(** * Further properties of the driver *)

(** ** Mapping a server *)

Section NodeMapping.

Context (TYPES_URN : string).

(** The element the private IP is taken from: [networkInfo/primaryNic]
    when there is a [networkInfo], else [nic]. *)
Lemma _to_node_value (element : Element) (n : Node) :
  _to_node TYPES_URN element = OK n ->
  exists cpuCount memoryGb operatingSystem nic,
    py_int (findtext element "cpuCount" TYPES_URN) = OK cpuCount
    /\ py_int (findtext element "memoryGb" TYPES_URN) = OK memoryGb
    /\ ET_find element (fixxpath "operatingSystem" TYPES_URN)
       = Some operatingSystem
    /\ (if not_None (ET_find element (fixxpath "networkInfo" TYPES_URN))
        then ET_find element (fixxpath "networkInfo/primaryNic" TYPES_URN)
        else ET_find element (fixxpath "nic" TYPES_URN)) = Some nic
    /\ Node_id n = get element "id"
    /\ Node_name n = findtext element "name" TYPES_URN
    /\ public_ips n
       = option_list (findtext element "publicIpAddress" TYPES_URN)
    /\ private_ips n = option_list (get nic "privateIpv4")
    /\ Node_extra n
       = list_to_map
           [("description", VOpt (findtext element "description" TYPES_URN));
            ("sourceImageId",
              VOpt (findtext element "sourceImageId" TYPES_URN));
            ("networkId", VOpt (findtext element "networkId" TYPES_URN));
            ("networkDomainId",
              VOpt (match ET_find element (fixxpath "networkInfo" TYPES_URN)
                    with
                    | Some networkInfo => get networkInfo "networkDomainId"
                    | None => None
                    end));
            ("datacenterId", VOpt (get element "datacenterId"));
            ("deployedTime", VOpt (findtext element "createTime" TYPES_URN));
            ("cpuCount", VInt cpuCount);
            ("memoryMb", VInt (memoryGb * 1024));
            ("OS_id", VOpt (get operatingSystem "id"));
            ("OS_type", VOpt (get operatingSystem "family"));
            ("OS_displayName", VOpt (get operatingSystem "displayName"));
            ("status",
              VStatus (_to_status TYPES_URN
                         (ET_find element (fixxpath "progress" TYPES_URN))))].
Proof.
  unfold _to_node, result_bind. intros H.
  destruct (py_int (findtext element "cpuCount" TYPES_URN)) as [cpuCount |];
    [| destruct (if not_None _ then _ else _); discriminate].
  destruct (py_int (findtext element "memoryGb" TYPES_URN)) as [memoryGb |];
    [| destruct (if not_None _ then _ else _); discriminate].
  destruct (ET_find element (fixxpath "operatingSystem" TYPES_URN))
    as [operatingSystem |];
    [| destruct (if not_None _ then _ else _); discriminate].
  destruct (ET_find element (fixxpath "networkInfo" TYPES_URN))
    as [networkInfo |]; simpl in H.
  - destruct (ET_find element (fixxpath "networkInfo/primaryNic" TYPES_URN))
      as [nic |]; [| discriminate].
    injection H as <-.
    exists cpuCount, memoryGb, operatingSystem, nic.
    repeat split; reflexivity.
  - destruct (ET_find element (fixxpath "nic" TYPES_URN)) as [nic |];
      [| discriminate].
    injection H as <-.
    exists cpuCount, memoryGb, operatingSystem, nic.
    repeat split; reflexivity.
Qed.

(** [int] raises [TypeError] on [None] and [ValueError] on a string
    that is no number, and nothing else. *)
Lemma py_int_Raise (x : option string) (e : exn) :
  py_int x = Raise e ->
  (x = None /\ e = TypeError)
  \/ (exists s, x = Some s /\ int_of_str s = None /\ e = ValueError).
Proof.
  destruct x as [s |]; simpl.
  - destruct (int_of_str s) eqn:Hs; [discriminate |].
    intros [= <-]. right. now exists s.
  - intros [= <-]. now left.
Qed.

(** X1: [_to_node] returns a node exactly for the elements in which
    [cpuCount] and [memoryGb] are numbers, there is an [operatingSystem]
    child, and the shape selected for the private IP is there. *)
Theorem _to_node_returns_iff :
  forall element : Element,
    (exists n, _to_node TYPES_URN element = OK n)
    <-> (exists cpuCount memoryGb operatingSystem nic,
           py_int (findtext element "cpuCount" TYPES_URN) = OK cpuCount
           /\ py_int (findtext element "memoryGb" TYPES_URN) = OK memoryGb
           /\ ET_find element (fixxpath "operatingSystem" TYPES_URN)
              = Some operatingSystem
           /\ (if not_None
                    (ET_find element (fixxpath "networkInfo" TYPES_URN))
               then ET_find element
                      (fixxpath "networkInfo/primaryNic" TYPES_URN)
               else ET_find element (fixxpath "nic" TYPES_URN)) = Some nic).
Proof.
  intros element. split.
  - intros [n Hn].
    destruct (_to_node_value element n Hn)
      as (cpuCount & memoryGb & operatingSystem & nic
          & Hcpu & Hmem & Hos & Hnic & _).
    now exists cpuCount, memoryGb, operatingSystem, nic.
  - intros (cpuCount & memoryGb & operatingSystem & nic
            & Hcpu & Hmem & Hos & Hnic).
    exact (_to_node_returns TYPES_URN element cpuCount memoryGb
             operatingSystem nic Hcpu Hmem Hos Hnic).
Qed.

(** X2: the exception of a failing [_to_node] is the first of: the one
    of [int] on the text of [cpuCount]; the one of [int] on the text of
    [memoryGb]; [AttributeError] for a missing [operatingSystem]; and
    [AttributeError] for a missing private-IP shape.  So it is a
    [TypeError], a [ValueError] or an [AttributeError]. *)
Theorem _to_node_raises_iff :
  forall (element : Element) (e : exn),
    (_to_node TYPES_URN element = Raise e
     <-> py_int (findtext element "cpuCount" TYPES_URN) = Raise e
         \/ (exists cpuCount,
               py_int (findtext element "cpuCount" TYPES_URN) = OK cpuCount
               /\ py_int (findtext element "memoryGb" TYPES_URN) = Raise e)
         \/ (exists cpuCount memoryGb,
               py_int (findtext element "cpuCount" TYPES_URN) = OK cpuCount
               /\ py_int (findtext element "memoryGb" TYPES_URN)
                  = OK memoryGb
               /\ e = AttributeError
               /\ (ET_find element (fixxpath "operatingSystem" TYPES_URN)
                   = None
                   \/ (if not_None
                            (ET_find element
                               (fixxpath "networkInfo" TYPES_URN))
                       then ET_find element
                              (fixxpath "networkInfo/primaryNic" TYPES_URN)
                       else ET_find element (fixxpath "nic" TYPES_URN))
                      = None)))
    /\ (_to_node TYPES_URN element = Raise e ->
        e = TypeError \/ e = ValueError \/ e = AttributeError).
Proof.
  intros element e.
  assert (Hiff :
    _to_node TYPES_URN element = Raise e
    <-> py_int (findtext element "cpuCount" TYPES_URN) = Raise e
        \/ (exists cpuCount,
              py_int (findtext element "cpuCount" TYPES_URN) = OK cpuCount
              /\ py_int (findtext element "memoryGb" TYPES_URN) = Raise e)
        \/ (exists cpuCount memoryGb,
              py_int (findtext element "cpuCount" TYPES_URN) = OK cpuCount
              /\ py_int (findtext element "memoryGb" TYPES_URN) = OK memoryGb
              /\ e = AttributeError
              /\ (ET_find element (fixxpath "operatingSystem" TYPES_URN)
                  = None
                  \/ (if not_None
                           (ET_find element (fixxpath "networkInfo" TYPES_URN))
                      then ET_find element
                             (fixxpath "networkInfo/primaryNic" TYPES_URN)
                      else ET_find element (fixxpath "nic" TYPES_URN))
                     = None))).
  { unfold _to_node, result_bind.
    destruct (py_int (findtext element "cpuCount" TYPES_URN))
      as [cpuCount | e1];
      destruct (py_int (findtext element "memoryGb" TYPES_URN))
        as [memoryGb | e2];
      destruct (ET_find element (fixxpath "operatingSystem" TYPES_URN))
        as [operatingSystem |];
      destruct (ET_find element (fixxpath "networkInfo" TYPES_URN))
        as [networkInfo |]; simpl;
      try match goal with
          | |- context [find_get ?o "privateIpv4"] => destruct o as [nic |]
          end; simpl;
      (split;
       [ intros H; first [discriminate H | injection H as <-; eauto 10]
       | intros [H | [(c & H1 & H2)
                     | (c & m & H1 & H2 & He & [H3 | H3])]];
         congruence ]). }
  split; [exact Hiff |].
  intros H. apply Hiff in H.
  destruct H as [H | [(c & _ & H) | (c & m & _ & _ & -> & _)]]; auto;
    apply py_int_Raise in H;
    destruct H as [[_ ->] | (s & _ & _ & ->)]; auto.
Qed.

(** X3: there is no fall-back between the two shapes.  An element with a
    [networkInfo] child that has no [primaryNic] is refused with
    [AttributeError], whatever [nic] children it has. *)
Theorem private_ip_no_fallback :
  forall (element : Element) cpuCount memoryGb operatingSystem,
    py_int (findtext element "cpuCount" TYPES_URN) = OK cpuCount ->
    py_int (findtext element "memoryGb" TYPES_URN) = OK memoryGb ->
    ET_find element (fixxpath "operatingSystem" TYPES_URN)
    = Some operatingSystem ->
    ET_find element (fixxpath "networkInfo" TYPES_URN) <> None ->
    ET_find element (fixxpath "networkInfo/primaryNic" TYPES_URN) = None ->
    _to_node TYPES_URN element = Raise AttributeError.
Proof.
  intros element cpuCount memoryGb operatingSystem Hcpu Hmem Hos Hinfo Hnic.
  unfold _to_node. rewrite Hcpu, Hmem, Hos, Hnic.
  destruct (ET_find element (fixxpath "networkInfo" TYPES_URN));
    [reflexivity | contradiction].
Qed.

(** X4: the IP lists of a mapped node have at most one address each.
    [public_ips] is empty exactly when there is no [publicIpAddress]
    child; a [publicIpAddress] child without text gives the empty string
    as the address.  [private_ips] is empty exactly when the selected
    element has no [privateIpv4] attribute. *)
Theorem node_ip_lists :
  forall element n,
    _to_node TYPES_URN element = OK n ->
    (length (public_ips n) <= 1)%nat
    /\ (length (private_ips n) <= 1)%nat
    /\ (public_ips n = []
        <-> ET_find element (fixxpath "publicIpAddress" TYPES_URN) = None)
    /\ (forall publicIpAddress,
          ET_find element (fixxpath "publicIpAddress" TYPES_URN)
          = Some publicIpAddress ->
          text publicIpAddress = None ->
          public_ips n = [EmptyString])
    /\ (exists nic,
          (if not_None (ET_find element (fixxpath "networkInfo" TYPES_URN))
           then ET_find element (fixxpath "networkInfo/primaryNic" TYPES_URN)
           else ET_find element (fixxpath "nic" TYPES_URN)) = Some nic
          /\ (private_ips n = [] <-> get nic "privateIpv4" = None)).
Proof.
  intros element n Hn.
  destruct (_to_node_value element n Hn)
    as (cpuCount & memoryGb & operatingSystem & nic
        & _ & _ & _ & Hnic & _ & _ & Hpub & Hpriv & _).
  rewrite Hpub, Hpriv. unfold findtext, ET_findtext.
  repeat split.
  - destruct (ET_find element (fixxpath "publicIpAddress" TYPES_URN));
      simpl; auto.
  - destruct (get nic "privateIpv4"); simpl; auto.
  - destruct (ET_find element (fixxpath "publicIpAddress" TYPES_URN));
      [discriminate | reflexivity].
  - intros ->. reflexivity.
  - intros publicIpAddress -> ->. reflexivity.
  - exists nic. split; [exact Hnic |].
    destruct (get nic "privateIpv4"); simpl; split; congruence.
Qed.

(** X5: the [extra] dictionary of a mapped node has exactly twelve keys,
    [password] not among them.  Its [status] is the default status when
    the element has no [progress] child, and its [networkDomainId] is
    [None] when the element has no [networkInfo] child. *)
Theorem node_extra_keys :
  forall element n,
    _to_node TYPES_URN element = OK n ->
    dom (Node_extra n)
    = list_to_set
        ["description"; "sourceImageId"; "networkId"; "networkDomainId";
         "datacenterId"; "deployedTime"; "cpuCount"; "memoryMb"; "OS_id";
         "OS_type"; "OS_displayName"; "status"]
    /\ Node_extra n !! "password" = None
    /\ (ET_find element (fixxpath "progress" TYPES_URN) = None ->
        Node_extra n !! "status" = Some (VStatus default_status))
    /\ (ET_find element (fixxpath "networkInfo" TYPES_URN) = None ->
        Node_extra n !! "networkDomainId" = Some VNone).
Proof.
  intros element n Hn.
  destruct (_to_node_value element n Hn)
    as (cpuCount & memoryGb & operatingSystem & nic
        & _ & _ & _ & _ & _ & _ & _ & _ & Hextra).
  rewrite Hextra. split; [now rewrite dom_list_to_map_L |].
  split; [reflexivity |].
  split; intros ->; reflexivity.
Qed.

End NodeMapping.

(** A server whose [networkInfo] has no [primaryNic] is refused, though
    it has a [nic]. *)
Lemma private_ip_no_fallback_witness :
  _to_node Sample.urn Inventory.half_migrated = Raise AttributeError.
Proof.
  apply (private_ip_no_fallback Sample.urn Inventory.half_migrated 2 4
           (Elem (Sample.q "operatingSystem")
              [("id", "UBUNTU1264"); ("displayName", "UBUNTU12/64");
               ("family", "UNIX")] None [])
           eq_refl eq_refl eq_refl);
    [discriminate | reflexivity].
Defined.

(** The sample server has no public address and one private address. *)
Lemma node_ip_lists_witness :
  exists n,
    _to_node Sample.urn
      (Sample.server "SRV1" "true" "4" [Sample.nic "10.0.0.9"]) = OK n
    /\ public_ips n = [].
Proof.
  eexists. split; [reflexivity |].
  lazymatch goal with
  | |- public_ips ?n = _ =>
      apply (proj1 (proj2 (proj2
               (node_ip_lists Sample.urn
                  (Sample.server "SRV1" "true" "4" [Sample.nic "10.0.0.9"])
                  n eq_refl))))
  end.
  reflexivity.
Defined.

(** The sample server is mapped without a password. *)
Lemma node_extra_keys_witness :
  exists n,
    _to_node Sample.urn
      (Sample.server "SRV1" "true" "4" [Sample.nic "10.0.0.9"]) = OK n
    /\ Node_extra n !! "password" = None.
Proof.
  eexists. split; [reflexivity |].
  lazymatch goal with
  | |- Node_extra ?n !! _ = _ =>
      exact (proj1 (proj2
               (node_extra_keys Sample.urn
                  (Sample.server "SRV1" "true" "4" [Sample.nic "10.0.0.9"])
                  n eq_refl)))
  end.
Defined.

(** ** Listings *)

(** A mapping over a list returns when every element is mapped, with the
    results in the order of the elements. *)
Lemma map_result_OK {A B} (f : A -> result B) (l : list A) (ys : list B) :
  map_result f l = OK ys <-> Forall2 (fun x y => f x = OK y) l ys.
Proof.
  revert ys. induction l as [| x l IH]; intros ys; simpl.
  - split; [intros [= <-]; constructor | intros H; now inversion H].
  - unfold result_bind. destruct (f x) as [y | e] eqn:Hx.
    + destruct (map_result f l) as [ys' | e].
      * split.
        -- intros [= <-]. constructor; [exact Hx | now apply IH].
        -- intros H. inversion H as [| ? y0 ? ys0 Hy Hrest]; subst.
           apply IH in Hrest. congruence.
      * split; [discriminate |].
        intros H. inversion H as [| ? y0 ? ys0 Hy Hrest]; subst.
        apply IH in Hrest. discriminate.
    + split; [discriminate |].
      intros H. inversion H. congruence.
Qed.

(** It raises what the first element that cannot be mapped raises. *)
Lemma map_result_Raise {A B} (f : A -> result B) (l : list A) (e : exn) :
  map_result f l = Raise e
  <-> exists before x after,
        l = (before ++ x :: after)%list
        /\ Forall (fun x => exists y, f x = OK y) before
        /\ f x = Raise e.
Proof.
  induction l as [| x l IH]; simpl.
  - split; [discriminate |].
    intros (before & x & after & Hl & _). now destruct before.
  - unfold result_bind. destruct (f x) as [y | e0] eqn:Hx.
    + destruct (map_result f l) as [ys | e1].
      * split; [discriminate |].
        intros (before & x0 & after & Hl & Hall & Hx0).
        destruct before as [| b before]; simpl in Hl;
          injection Hl as -> ->; [congruence |].
        inversion Hall; subst.
        assert (H : OK ys = Raise e)
          by (apply IH; exists before, x0, after; auto).
        discriminate.
      * split.
        -- intros [= ->].
           destruct (proj1 IH eq_refl)
             as (before & x0 & after & -> & Hall & Hx0).
           exists (x :: before), x0, after.
           repeat split; [constructor; eauto | exact Hx0].
        -- intros (before & x0 & after & Hl & Hall & Hx0).
           destruct before as [| b before]; simpl in Hl;
             injection Hl as -> ->; [congruence |].
           inversion Hall; subst. apply IH.
           exists before, x0, after. auto.
    + split.
      * intros [= ->]. exists [], x, l. repeat split; [constructor | exact Hx].
      * intros (before & x0 & after & Hl & Hall & Hx0).
        destruct before as [| b before]; simpl in Hl;
          injection Hl as -> ->; [congruence |].
        inversion Hall as [| ? ? [y Hy] ?]; subst. congruence.
Qed.

(** The filter-and-index expression raises exactly when no location has
    the id, and then [IndexError]. *)
Lemma filter_id_0_Raise (location_id : option string)
  (locations : list NodeLocation) (e : exn) :
  filter_id_0 location_id locations = Raise e
  <-> e = IndexError
      /\ forall l, In l locations -> loc_id l <> location_id.
Proof.
  pose proof (filter_id_0_spec location_id locations) as Hspec.
  destruct (filter_id_0 location_id locations) as [l | e0].
  - destruct Hspec as (before & after & -> & Hid & _).
    split; [discriminate |].
    intros [_ Hno]. exfalso. apply (Hno l); [| exact Hid].
    apply in_or_app. right. now left.
  - destruct Hspec as [-> Hall]. rewrite Forall_forall in Hall.
    split.
    + intros [= <-]. split; [reflexivity |].
      intros l Hl. apply Hall. now apply list_elem_of_In.
    + now intros [-> _].
Qed.

(** What it returns is a location of the list with the id. *)
Lemma filter_id_0_OK (location_id : option string)
  (locations : list NodeLocation) (l : NodeLocation) :
  filter_id_0 location_id locations = OK l ->
  In l locations /\ loc_id l = location_id.
Proof.
  pose proof (filter_id_0_spec location_id locations) as Hspec.
  intros H. rewrite H in Hspec.
  destruct Hspec as (before & after & -> & Hid & _).
  split; [| exact Hid]. apply in_or_app. right. now left.
Qed.

(** A listing whose elements fail only for a location that is not found
    fails exactly when one of its elements names such a location. *)
Lemma map_result_unknown_location {A} (f : Element -> result A)
  (key : Element -> option string) (locations : list NodeLocation)
  (elements : list Element) (e : exn) :
  (forall element e,
     f element = Raise e
     <-> e = IndexError
         /\ forall l, In l locations -> loc_id l <> key element) ->
  (map_result f elements = Raise e
   <-> e = IndexError
       /\ exists element,
            In element elements
            /\ forall l, In l locations -> loc_id l <> key element).
Proof.
  intros Hf. split.
  - intros H. apply map_result_Raise in H.
    destruct H as (before & x & after & -> & _ & Hx).
    apply Hf in Hx as [-> Hno]. split; [reflexivity |].
    exists x. split; [| exact Hno]. apply in_or_app. right. now left.
  - intros [-> (element & Hin & Hno)].
    destruct (map_result f elements) as [ys | e'] eqn:Hrun.
    + apply map_result_OK in Hrun.
      exfalso. revert Hin. induction Hrun as [| x y l ys' Hx _ IH].
      * intros [].
      * intros [<- | Hin]; [| now apply IH].
        assert (H : f x = Raise IndexError) by now apply Hf.
        congruence.
    + apply map_result_Raise in Hrun.
      destruct Hrun as (before & x & after & _ & _ & Hx).
      apply Hf in Hx as [-> _]. reflexivity.
Qed.

Section Listings.

Context (TYPES_URN SERVER_NS NETWORK_NS : string)
        (respond : Trace -> Request -> result Element).

(** The mappers that embed a location first fetch the data centres and
    then map every element against that one list. *)
Lemma locations_then_map {A}
  (f : Element -> list NodeLocation -> result A) (elements : list Element)
  (t : Trace) :
  (let* locations := list_locations TYPES_URN respond in
   lift (map_result (fun element => f element locations) elements)) t
  = ((let? datacenters :=
        respond t (mkRequest orgId_api_2 "infrastructure/datacenter" "GET"
                     [] None) in
      map_result
        (fun element => f element (_to_locations TYPES_URN datacenters))
        elements),
     (t ++ [Sent (mkRequest orgId_api_2 "infrastructure/datacenter" "GET"
                    [] None)])%list).
Proof.
  unfold list_locations, request_with_orgId_api_2, send, bind, lift, ret.
  simpl. now destruct (respond t _).
Qed.

(** X6: [list_nodes] sends one request.  An exception of the connection
    is passed on.  Otherwise the listing is all or nothing: it returns
    the nodes of all [Server] children, in document order, when every one
    of them can be mapped, and raises what the first one that cannot be
    mapped raises. *)
Theorem list_nodes_all_or_nothing :
  forall t : Trace,
    let request := mkRequest orgId_api_2 "server/server" "GET" [] None in
    snd (list_nodes TYPES_URN respond t) = (t ++ [Sent request])%list
    /\ (forall e,
          respond t request = Raise e ->
          fst (list_nodes TYPES_URN respond t) = Raise e)
    /\ (forall object,
          respond t request = OK object ->
          let servers := ET_findall object (fixxpath "Server" TYPES_URN) in
          (forall nodes,
             fst (list_nodes TYPES_URN respond t) = OK nodes
             <-> Forall2 (fun element n => _to_node TYPES_URN element = OK n)
                         servers nodes)
          /\ (forall e,
                fst (list_nodes TYPES_URN respond t) = Raise e
                <-> exists before element after,
                      servers = (before ++ element :: after)%list
                      /\ Forall (fun x => exists n,
                                   _to_node TYPES_URN x = OK n) before
                      /\ _to_node TYPES_URN element = Raise e)).
Proof.
  intros t request.
  unfold list_nodes, request_with_orgId_api_2, send, bind, lift, _to_nodes.
  fold request. destruct (respond t request) as [object | e0]; simpl.
  - split; [reflexivity |]. split; [discriminate |].
    intros ? [= <-]. split.
    + intros nodes. apply map_result_OK.
    + intros e. apply map_result_Raise.
  - split; [reflexivity |]. split; [| discriminate].
    now intros e [= <-].
Qed.

Lemma _to_base_image_Raise (element : Element)
  (locations : list NodeLocation) (e : exn) :
  _to_base_image SERVER_NS element locations = Raise e
  <-> e = IndexError
      /\ forall l, In l locations -> loc_id l <> get element "location".
Proof.
  rewrite <- filter_id_0_Raise. unfold _to_base_image, result_bind.
  destruct (filter_id_0 (get element "location") locations);
    split; congruence.
Qed.

(** X7: [list_images] asks for the images first, with the id of the
    location as the [location] parameter when one is given, and for the
    data centres second; an exception of the connection is passed on, and
    after a failed first request the second is not sent.  With both
    answered, it returns one image per [image] child, in document order,
    when the [location] attribute of every one is the id of a data centre,
    and raises [IndexError] when one is not.  Without [image] children the
    result is the empty list (the data centres are fetched all the
    same). *)
Theorem list_images_requests_and_result :
  forall (location : option NodeLocation) (t : Trace),
    let params :=
      match location with
      | Some l => [("location", loc_id l)]
      | None => []
      end in
    let images_request :=
      mkRequest api_1 "base/imageWithDiskSpeed" "GET" params None in
    let datacenter_request :=
      mkRequest orgId_api_2 "infrastructure/datacenter" "GET" [] None in
    let run := list_images TYPES_URN SERVER_NS respond location t in
    (forall e,
       respond t images_request = Raise e ->
       run = (Raise e, (t ++ [Sent images_request])%list))
    /\ (forall object,
          respond t images_request = OK object ->
          snd run
          = (t ++ [Sent images_request; Sent datacenter_request])%list
          /\ (forall e,
                respond (t ++ [Sent images_request])%list datacenter_request
                = Raise e ->
                fst run = Raise e)
          /\ (forall datacenters,
                respond (t ++ [Sent images_request])%list datacenter_request
                = OK datacenters ->
                let locations := _to_locations TYPES_URN datacenters in
                let elements :=
                  ET_findall object (fixxpath "image" SERVER_NS) in
                (forall images,
                   fst run = OK images
                   <-> Forall2
                         (fun element image =>
                            _to_base_image SERVER_NS element locations
                            = OK image)
                         elements images)
                /\ (forall e,
                      fst run = Raise e
                      <-> e = IndexError
                          /\ exists element,
                               In element elements
                               /\ forall l,
                                    In l locations ->
                                    loc_id l <> get element "location")
                /\ (elements = [] -> fst run = OK []))).
Proof.
  intros location t params images_request datacenter_request run.
  subst run. unfold list_images, request_api_1, send, bind.
  fold params. fold images_request.
  destruct (respond t images_request) as [object | e0]; simpl.
  - split; [discriminate |]. intros ? [= <-].
    unfold _to_base_images. rewrite locations_then_map.
    fold datacenter_request. simpl.
    split; [now rewrite <- app_assoc |].
    destruct (respond (t ++ [Sent images_request])%list datacenter_request)
      as [datacenters | e1]; simpl.
    + split; [discriminate |]. intros ? [= <-]. simpl.
      split; [intros images; apply map_result_OK |].
      split.
      * intros e.
        apply (map_result_unknown_location _
                 (fun element => get element "location")).
        intros element e'. apply _to_base_image_Raise.
      * now intros ->.
    + split; [now intros e [= <-] | discriminate].
  - split; [| discriminate]. now intros e [= <-].
Qed.

(** X8: an image that [_to_base_image] returns embeds, under
    [location], a location of the list whose id is the [location]
    attribute of the element; its id is the [id] attribute; its name is
    the string [None] when the element has no [name] child; and its
    [extra] has exactly ten keys. *)
Theorem base_image_location :
  forall element locations image,
    _to_base_image SERVER_NS element locations = OK image ->
    (exists l,
       In l locations
       /\ loc_id l = get element "location"
       /\ image_extra image !! "location" = Some (VLocation l))
    /\ image_id image = get element "id"
    /\ (findtext element "name" SERVER_NS = None ->
        image_name image = "None")
    /\ dom (image_extra image)
       = list_to_set
           ["description"; "OS_type"; "OS_displayName"; "cpuCount";
            "resourcePath"; "memory"; "osStorage"; "additionalStorage";
            "created"; "location"].
Proof.
  intros element locations image. unfold _to_base_image, result_bind.
  destruct (filter_id_0 (get element "location") locations) as [l |] eqn:Hl;
    [| discriminate].
  intros [= <-]. apply filter_id_0_OK in Hl as [Hin Hid].
  cbn [image_extra image_id image_name].
  split; [exists l; split; [assumption | split; [assumption | reflexivity]] |].
  split; [reflexivity |].
  split; [now intros -> |].
  rewrite !dom_insert_L, dom_empty_L. reflexivity.
Qed.

(** The three mappers that resolve a location, side by side. *)
Lemma embedded_location_resolved_aux :
  forall (element : Element) (locations : list NodeLocation),
    ((forall e,
        _to_network TYPES_URN NETWORK_NS element locations = Raise e
        <-> e = IndexError
            /\ forall l,
                 In l locations ->
                 loc_id l <> findtext element "location" NETWORK_NS)
     /\ (forall network,
           _to_network TYPES_URN NETWORK_NS element locations = OK network ->
           In (net_location network) locations
           /\ loc_id (net_location network)
              = findtext element "location" NETWORK_NS
           /\ (net_multicast network = true
               <-> findtext element "multicast" NETWORK_NS = Some "true")))
    /\ ((forall e,
           _to_network_domain TYPES_URN element locations = Raise e
           <-> e = IndexError
               /\ forall l,
                    In l locations ->
                    loc_id l <> get element "datacenterId")
        /\ (forall domain,
              _to_network_domain TYPES_URN element locations = OK domain ->
              In (nd_location domain) locations
              /\ loc_id (nd_location domain) = get element "datacenterId"
              /\ nd_id domain = get element "id"))
    /\ ((forall e,
           _to_vlan TYPES_URN element locations = Raise e
           <-> e = IndexError
               /\ forall l,
                    In l locations ->
                    loc_id l <> get element "datacenterId")
        /\ (forall vlan,
              _to_vlan TYPES_URN element locations = OK vlan ->
              In (vlan_location vlan) locations
              /\ loc_id (vlan_location vlan) = get element "datacenterId"
              /\ vlan_id vlan = get element "id")).
Proof.
  intros element locations.
  unfold _to_network, _to_network_domain, _to_vlan, result_bind.
  split; [| split]; (split; [intros e | intros x H]);
    try (rewrite <- filter_id_0_Raise;
         destruct (filter_id_0 _ locations); split; congruence);
    (destruct (filter_id_0 _ locations) as [l |] eqn:Hl; [| discriminate]);
    injection H as <-; apply filter_id_0_OK in Hl as [Hin Hid];
    cbn [net_location net_multicast nd_location nd_id vlan_location vlan_id];
    (split; [exact Hin | split; [exact Hid |]]);
    first [reflexivity | apply py_eq_true].
Qed.

(** X9: [_to_network], [_to_network_domain] and [_to_vlan] return
    exactly when a location of the list has the id the element refers to
    (the text of [location], the attribute [datacenterId]); they raise
    nothing but [IndexError]; and the location they embed is a location
    of the list with that id.  A network is multicast exactly when the
    text of [multicast] is [true]. *)
Theorem embedded_location_resolved :
  forall (element : Element) (locations : list NodeLocation),
    ((forall e,
        _to_network TYPES_URN NETWORK_NS element locations = Raise e
        <-> e = IndexError
            /\ forall l,
                 In l locations ->
                 loc_id l <> findtext element "location" NETWORK_NS)
     /\ (forall network,
           _to_network TYPES_URN NETWORK_NS element locations = OK network ->
           In (net_location network) locations
           /\ loc_id (net_location network)
              = findtext element "location" NETWORK_NS
           /\ (net_multicast network = true
               <-> findtext element "multicast" NETWORK_NS = Some "true")))
    /\ ((forall e,
           _to_network_domain TYPES_URN element locations = Raise e
           <-> e = IndexError
               /\ forall l,
                    In l locations ->
                    loc_id l <> get element "datacenterId")
        /\ (forall domain,
              _to_network_domain TYPES_URN element locations = OK domain ->
              In (nd_location domain) locations
              /\ loc_id (nd_location domain) = get element "datacenterId"
              /\ nd_id domain = get element "id"))
    /\ ((forall e,
           _to_vlan TYPES_URN element locations = Raise e
           <-> e = IndexError
               /\ forall l,
                    In l locations ->
                    loc_id l <> get element "datacenterId")
        /\ (forall vlan,
              _to_vlan TYPES_URN element locations = OK vlan ->
              In (vlan_location vlan) locations
              /\ loc_id (vlan_location vlan) = get element "datacenterId"
              /\ vlan_id vlan = get element "id")).
Proof. exact embedded_location_resolved_aux. Qed.

(** A listing that embeds locations: one request for the elements, one
    for the data centres, and a mapping that fails only for a location
    that is not found. *)
Lemma listing_outcome {A}
  (f : Element -> list NodeLocation -> result A)
  (key : Element -> option string) (request : Request)
  (elements : Element -> list Element) (t : Trace) :
  (forall element locations e,
     f element locations = Raise e
     <-> e = IndexError
         /\ forall l, In l locations -> loc_id l <> key element) ->
  let datacenter_request :=
    mkRequest orgId_api_2 "infrastructure/datacenter" "GET" [] None in
  let run :=
    (let* response := send respond request in
     let* locations := list_locations TYPES_URN respond in
     lift (map_result (fun element => f element locations)
                      (elements response))) t in
  (forall e,
     respond t request = Raise e ->
     run = (Raise e, (t ++ [Sent request])%list))
  /\ (forall object,
        respond t request = OK object ->
        snd run = (t ++ [Sent request; Sent datacenter_request])%list
        /\ (forall e,
              respond (t ++ [Sent request])%list datacenter_request
              = Raise e ->
              fst run = Raise e)
        /\ (forall datacenters,
              respond (t ++ [Sent request])%list datacenter_request
              = OK datacenters ->
              (forall xs,
                 fst run = OK xs
                 <-> Forall2
                       (fun element x =>
                          f element (_to_locations TYPES_URN datacenters)
                          = OK x)
                       (elements object) xs)
              /\ (forall e,
                    fst run = Raise e
                    <-> e = IndexError
                        /\ exists element,
                             In element (elements object)
                             /\ forall l,
                                  In l (_to_locations TYPES_URN datacenters) ->
                                  loc_id l <> key element))).
Proof.
  intros Hf datacenter_request run.
  assert (Hrun :
    run = match respond t request with
          | OK object =>
              ((let? datacenters :=
                  respond (t ++ [Sent request])%list datacenter_request in
                map_result
                  (fun element =>
                     f element (_to_locations TYPES_URN datacenters))
                  (elements object)),
               (t ++ [Sent request; Sent datacenter_request])%list)
          | Raise e => (Raise e, (t ++ [Sent request])%list)
          end).
  { subst run. unfold send at 1, bind at 1.
    destruct (respond t request) as [object | e0]; [| reflexivity].
    cbv beta iota. rewrite locations_then_map.
    now rewrite <- app_assoc. }
  clearbody run. subst run.
  destruct (respond t request) as [object | e0].
  - split; [discriminate |]. intros ? [= <-].
    split; [reflexivity |].
    destruct (respond (t ++ [Sent request])%list datacenter_request)
      as [datacenters | e1]; simpl.
    + split; [discriminate |]. intros ? [= <-].
      split; [intros xs; apply map_result_OK |].
      intros e. apply (map_result_unknown_location _ key).
      intros element e'. apply Hf.
    + split; [now intros e [= <-] | discriminate].
  - split; [| discriminate]. now intros e [= <-].
Qed.

(** X10: the two network listings differ in how they pass the location.
    Without one they do the same.  [list_networks] appends the id of the
    location to the path, and raises [TypeError] before any request when
    the location has no id; [ex_list_networks] keeps the path and passes
    the id as the [location] parameter. *)
Theorem network_listings_location :
  forall t : Trace,
    list_networks TYPES_URN NETWORK_NS respond None t
    = ex_list_networks TYPES_URN NETWORK_NS respond None t
    /\ (forall l,
          loc_id l = None ->
          list_networks TYPES_URN NETWORK_NS respond (Some l) t
          = (Raise TypeError, t))
    /\ (forall l id,
          loc_id l = Some id ->
          exists rest,
            snd (list_networks TYPES_URN NETWORK_NS respond (Some l) t)
            = (t ++ Sent (mkRequest orgId_api_1
                            ("networkWithLocation/" ++ id) "GET" [] None)
                 :: rest)%list)
    /\ (forall l,
          exists rest,
            snd (ex_list_networks TYPES_URN NETWORK_NS respond (Some l) t)
            = (t ++ Sent (mkRequest orgId_api_1 "networkWithLocation" "GET"
                            [("location", loc_id l)] None)
                 :: rest)%list).
Proof.
  intros t. split; [reflexivity |]. split; [| split].
  - intros l Hid. unfold list_networks, bind, raise. now rewrite Hid.
  - intros l id Hid.
    unfold list_networks, request_with_orgId_api_1, send, bind, ret.
    rewrite Hid. simpl.
    destruct (respond t _) as [object | e]; simpl; [| eauto].
    unfold _to_networks. rewrite locations_then_map. simpl.
    rewrite <- app_assoc. simpl. eauto.
  - intros l.
    unfold ex_list_networks, request_with_orgId_api_1, send, bind.
    destruct (respond t _) as [object | e]; simpl; [| eauto].
    unfold _to_networks. rewrite locations_then_map. simpl.
    rewrite <- app_assoc. simpl. eauto.
Qed.

(** X11: [ex_list_vlans] asks for [network/vlan], with [datacenterId]
    and [networkDomainId] as parameters for the filters that are given,
    in this order, and then for the data centres; an exception of the
    connection is passed on.  With both answered, it returns one VLAN per
    [vlan] child, in document order, when the [datacenterId] of every one
    is the id of a data centre, and raises [IndexError] when one is
    not. *)
Theorem ex_list_vlans_requests_and_result :
  forall (location : option NodeLocation)
         (network_domain : option DimensionDataNetworkDomain) (t : Trace),
    let params :=
      (match location with
       | Some l => [("datacenterId", loc_id l)]
       | None => []
       end ++
       match network_domain with
       | Some d => [("networkDomainId", nd_id d)]
       | None => []
       end)%list in
    let request := mkRequest orgId_api_2 "network/vlan" "GET" params None in
    let datacenter_request :=
      mkRequest orgId_api_2 "infrastructure/datacenter" "GET" [] None in
    let run := ex_list_vlans TYPES_URN respond location network_domain t in
    (forall e,
       respond t request = Raise e ->
       run = (Raise e, (t ++ [Sent request])%list))
    /\ (forall object,
          respond t request = OK object ->
          snd run = (t ++ [Sent request; Sent datacenter_request])%list
          /\ (forall e,
                respond (t ++ [Sent request])%list datacenter_request
                = Raise e ->
                fst run = Raise e)
          /\ (forall datacenters,
                respond (t ++ [Sent request])%list datacenter_request
                = OK datacenters ->
                (forall vlans,
                   fst run = OK vlans
                   <-> Forall2
                         (fun element vlan =>
                            _to_vlan TYPES_URN element
                              (_to_locations TYPES_URN datacenters)
                            = OK vlan)
                         (findall object "vlan" TYPES_URN) vlans)
                /\ (forall e,
                      fst run = Raise e
                      <-> e = IndexError
                          /\ exists element,
                               In element (findall object "vlan" TYPES_URN)
                               /\ forall l,
                                    In l (_to_locations TYPES_URN datacenters)
                                    -> loc_id l
                                       <> get element "datacenterId"))).
Proof.
  intros location network_domain t params request datacenter_request run.
  apply (listing_outcome (_to_vlan TYPES_URN)
           (fun element => get element "datacenterId") request
           (fun object => findall object "vlan" TYPES_URN) t).
  intros element locations e.
  apply (proj1 (proj2 (proj2
           (embedded_location_resolved_aux element locations)))).
Qed.

(** X12: [ex_list_network_domains] asks for [network/networkDomain],
    with the id of the location as [datacenterId] when one is given, and
    then for the data centres.  With both answered, it returns one domain
    per [networkDomain] child, in document order, when the [datacenterId]
    of every one is the id of a data centre, and raises [IndexError] when
    one is not. *)
Theorem ex_list_network_domains_requests_and_result :
  forall (location : option NodeLocation) (t : Trace),
    let params :=
      match location with
      | Some l => [("datacenterId", loc_id l)]
      | None => []
      end in
    let request :=
      mkRequest orgId_api_2 "network/networkDomain" "GET" params None in
    let datacenter_request :=
      mkRequest orgId_api_2 "infrastructure/datacenter" "GET" [] None in
    let run := ex_list_network_domains TYPES_URN respond location t in
    (forall e,
       respond t request = Raise e ->
       run = (Raise e, (t ++ [Sent request])%list))
    /\ (forall object,
          respond t request = OK object ->
          snd run = (t ++ [Sent request; Sent datacenter_request])%list
          /\ (forall e,
                respond (t ++ [Sent request])%list datacenter_request
                = Raise e ->
                fst run = Raise e)
          /\ (forall datacenters,
                respond (t ++ [Sent request])%list datacenter_request
                = OK datacenters ->
                (forall domains,
                   fst run = OK domains
                   <-> Forall2
                         (fun element domain =>
                            _to_network_domain TYPES_URN element
                              (_to_locations TYPES_URN datacenters)
                            = OK domain)
                         (findall object "networkDomain" TYPES_URN) domains)
                /\ (forall e,
                      fst run = Raise e
                      <-> e = IndexError
                          /\ exists element,
                               In element
                                  (findall object "networkDomain" TYPES_URN)
                               /\ forall l,
                                    In l (_to_locations TYPES_URN datacenters)
                                    -> loc_id l
                                       <> get element "datacenterId"))).
Proof.
  intros location t params request datacenter_request run.
  apply (listing_outcome (_to_network_domain TYPES_URN)
           (fun element => get element "datacenterId") request
           (fun object => findall object "networkDomain" TYPES_URN) t).
  intros element locations e.
  apply (proj1 (proj1 (proj2
           (embedded_location_resolved_aux element locations)))).
Qed.

End Listings.

(** The sample inventory lists its two servers. *)
Lemma list_nodes_witness :
  exists nodes,
    fst (list_nodes Sample.urn Inventory.respond []) = OK nodes
    /\ Forall2 (fun element n => _to_node Sample.urn element = OK n)
               (ET_findall Inventory.servers (fixxpath "Server" Sample.urn))
               nodes.
Proof.
  eexists. split; [reflexivity |].
  lazymatch goal with
  | |- Forall2 _ _ ?nodes =>
      apply (proj1 (proj1 (proj2 (proj2 (list_nodes_all_or_nothing
                                           Sample.urn Inventory.respond []))
                                 Inventory.servers eq_refl)
                          nodes))
  end.
  reflexivity.
Defined.

(** The sample inventory lists its two images. *)
Lemma list_images_witness :
  exists images,
    fst (list_images Sample.urn Inventory.server_ns Inventory.respond
           None []) = OK images
    /\ Forall2
         (fun element image =>
            _to_base_image Inventory.server_ns element
              (_to_locations Sample.urn Sample.datacenters) = OK image)
         (ET_findall Inventory.images (fixxpath "image" Inventory.server_ns))
         images.
Proof.
  eexists. split; [reflexivity |].
  lazymatch goal with
  | |- Forall2 _ _ ?images =>
      apply (proj1 (proj1 (proj2 (proj2 (proj2
               (list_images_requests_and_result
                  Sample.urn Inventory.server_ns Inventory.respond None [])
               Inventory.images eq_refl))
               Sample.datacenters eq_refl)
               images))
  end.
  reflexivity.
Defined.

(** The first sample image is in the data centre [NA1]. *)
Lemma base_image_location_witness :
  exists image,
    _to_base_image Inventory.server_ns (Inventory.image "IMG1" "NA1")
      Sample.locations = OK image
    /\ image_id image = Some "IMG1".
Proof.
  eexists. split; [reflexivity |].
  lazymatch goal with
  | |- image_id ?image = _ =>
      exact (proj1 (proj2 (base_image_location
                             Inventory.server_ns
                             (Inventory.image "IMG1" "NA1") Sample.locations
                             image eq_refl)))
  end.
Defined.

(** ** Deployment, step by step *)

Section DeploySteps.

Context (TYPES_URN : string) (tostring : Element -> string)
        (respond : Trace -> Request -> result Element)
        {Auth : Type} (_get_and_check_auth : Auth -> result NodeAuthPassword).

(** The run of [create_node], laid out: the credential check, the check
    of the network arguments, the document with its five fixed children
    and the children of the network modes, the deployment and the
    fetch. *)
Lemma create_node_run (name : string) (image : NodeImage) (auth : Auth)
  (ex_description : string) (ex_network ex_network_domain ex_vlan : pyobj)
  (ex_is_started : bool) (t : Trace) :
  create_node TYPES_URN tostring respond _get_and_check_auth name image auth
    ex_description ex_network ex_network_domain ex_vlan ex_is_started t
  = match _get_and_check_auth auth with
    | Raise e => (Raise e, t)
    | OK auth_obj =>
        if negb (is_network ex_network)
           && negb (is_network_domain ex_network_domain)
        then (Raise ValueError, t)
        else
          let t1 :=
            (t ++ [Created "deployServer" [("xmlns", TYPES_URN)]])%list in
          match
            (let? network :=
               if is_not_None ex_network
               then
                 let? network_id := getattr_id ex_network in
                 OK [Elem "network" [] None
                       [Elem "networkId" [] network_id []]]
               else OK [] in
             let? networkInfo :=
               if is_not_None ex_network_domain
               then
                 let? domain_id := getattr_id ex_network_domain in
                 let? domain_id := attr_value domain_id in
                 let? vlan_id := getattr_id ex_vlan in
                 OK [Elem "networkInfo" [("networkDomainId", domain_id)] None
                       [Elem "primaryNic" [] None
                          [Elem "vlanId" [] vlan_id []]]]
               else OK [] in
             OK (network ++ networkInfo)%list)
          with
          | Raise e => (Raise e, t1)
          | OK modes =>
              let server_elm :=
                Elem "deployServer" [("xmlns", TYPES_URN)] None
                  ([Elem "name" [] (Some name) [];
                    Elem "description" [] (Some ex_description) [];
                    Elem "imageId" [] (image_id image) [];
                    Elem "start" []
                      (Some (if ex_is_started then "true" else "false")) [];
                    Elem "administratorPassword" []
                      (Some (password auth_obj)) []] ++ modes)%list in
              let deploy :=
                mkRequest orgId_api_2 "server/deployServer" "POST" []
                  (Some (tostring server_elm)) in
              match respond t1 deploy with
              | Raise e => (Raise e, (t1 ++ [Sent deploy])%list)
              | OK response =>
                  let fetch :=
                    mkRequest orgId_api_2
                      ("server/server/"
                       ++ py_str
                            match
                              last (List.filter
                                      (fun info =>
                                         py_eq (get info "name")
                                               (Some "serverId"))
                                      (findall response "info" TYPES_URN))
                            with
                            | Some info => get info "value"
                            | None => None
                            end)
                      "GET" [] None in
                  ((let? object :=
                      respond (t1 ++ [Sent deploy])%list fetch in
                    let? node := _to_node TYPES_URN object in
                    OK (if generated auth_obj
                        then set_extra node "password"
                               (VStr (password auth_obj))
                        else node)),
                   ((t1 ++ [Sent deploy]) ++ [Sent fetch])%list)
              end
          end
    end.
Proof.
  unfold create_node, bind, lift, raise, ret, ET_Element, emit,
    request_with_orgId_api_2, send, ex_get_node_by_id, SubElement,
    str_bool_lower.
  destruct (_get_and_check_auth auth) as [auth_obj | e]; [| reflexivity].
  destruct (is_network ex_network), (is_network_domain ex_network_domain);
    simpl; try reflexivity;
    destruct (is_not_None ex_network); simpl;
    try (destruct (getattr_id ex_network) as [network_id | e]; simpl;
         [| reflexivity]);
    destruct (is_not_None ex_network_domain); simpl;
    try (destruct (getattr_id ex_network_domain) as [domain_id | e]; simpl;
         [| reflexivity];
         destruct (attr_value domain_id) as [domain_id' | e]; simpl;
         [| reflexivity];
         destruct (getattr_id ex_vlan) as [vlan_id | e]; simpl;
         [| reflexivity]);
    (match goal with
     | |- context [respond ?tr ?rq] =>
         destruct (respond tr rq) as [response | e]; [| reflexivity]
     end);
    rewrite fold_serverId;
    unfold request_with_orgId_api_2, send, bind, lift;
    (match goal with
     | |- context [respond (?tr ++ [Sent ?d])%list ?rq] =>
         destruct (respond (tr ++ [Sent d])%list rq) as [object | e];
         [| reflexivity]
     end);
    simpl; destruct (_to_node TYPES_URN object); reflexivity.
Qed.

(** X13: whatever its arguments and whatever the connection answers,
    [create_node] stops at one of four points: before anything is done;
    with the document started and nothing sent; after the deployment
    request (a POST to [server/deployServer]), with the exception the
    connection raised for it; or after the deployment and the fetch (a GET
    of [server/server/<id>], the id being the value of the last [info]
    element named [serverId], or [None]).  It sends nothing else, and it
    returns a node only at the last point. *)
Theorem create_node_protocol :
  forall name image auth ex_description ex_network ex_network_domain ex_vlan
         (ex_is_started : bool) (t : Trace),
    let run :=
      create_node TYPES_URN tostring respond _get_and_check_auth
        name image auth ex_description ex_network ex_network_domain ex_vlan
        ex_is_started t in
    let root := Created "deployServer" [("xmlns", TYPES_URN)] in
    (exists e, run = (Raise e, t))
    \/ (exists e, run = (Raise e, (t ++ [root])%list))
    \/ (exists e data,
          let deploy :=
            mkRequest orgId_api_2 "server/deployServer" "POST" []
              (Some data) in
          run = (Raise e, (t ++ [root; Sent deploy])%list)
          /\ respond (t ++ [root])%list deploy = Raise e)
    \/ (exists data response,
          let deploy :=
            mkRequest orgId_api_2 "server/deployServer" "POST" []
              (Some data) in
          let fetch :=
            mkRequest orgId_api_2
              ("server/server/"
               ++ py_str
                    match
                      last (List.filter
                              (fun info =>
                                 py_eq (get info "name") (Some "serverId"))
                              (findall response "info" TYPES_URN))
                    with
                    | Some info => get info "value"
                    | None => None
                    end)
              "GET" [] None in
          snd run = (t ++ [root; Sent deploy; Sent fetch])%list
          /\ respond (t ++ [root])%list deploy = OK response).
Proof.
  intros name image auth ex_description ex_network ex_network_domain ex_vlan
    ex_is_started t run root.
  subst run. rewrite create_node_run. fold root.
  destruct (_get_and_check_auth auth) as [auth_obj | e]; [| eauto].
  destruct (negb (is_network ex_network)
            && negb (is_network_domain ex_network_domain)); [eauto |].
  cbv zeta.
  match goal with
  | |- context [match ?m with OK _ => _ | Raise _ => _ end] =>
      destruct m as [modes | e]; [| eauto]
  end.
  match goal with
  | |- context [respond (t ++ [root])%list ?d] =>
      destruct (respond (t ++ [root])%list d) as [response | e] eqn:Hdeploy
  end.
  - right. right. right. eexists _, response. cbv zeta.
    split; [| exact Hdeploy].
    cbn [snd]. now rewrite <- !app_assoc.
  - right. right. left. eexists e, _. cbv zeta.
    split; [| exact Hdeploy].
    now rewrite <- app_assoc.
Qed.


(** X15: [create_node] with a network domain and a VLAN, and no
    network, creates and sends a [deployServer] document with the five
    fixed children and a [networkInfo] element that carries the id of the
    domain and holds [primaryNic/vlanId]; it has no [network] child. *)
Theorem create_node_network_domain_mode :
  forall name image auth auth_obj ex_description domain domain_id vlan
         (ex_is_started : bool) (t : Trace),
    let server_elm :=
      Elem "deployServer" [("xmlns", TYPES_URN)] None
        [Elem "name" [] (Some name) [];
         Elem "description" [] (Some ex_description) [];
         Elem "imageId" [] (image_id image) [];
         Elem "start" [] (Some (if ex_is_started then "true" else "false")) [];
         Elem "administratorPassword" [] (Some (password auth_obj)) [];
         Elem "networkInfo" [("networkDomainId", domain_id)] None
           [Elem "primaryNic" [] None
              [Elem "vlanId" [] (vlan_id vlan) []]]] in
    let deploy :=
      mkRequest orgId_api_2 "server/deployServer" "POST" []
        (Some (tostring server_elm)) in
    let t1 := (t ++ [Created "deployServer" [("xmlns", TYPES_URN)]])%list in
    _get_and_check_auth auth = OK auth_obj ->
    nd_id domain = Some domain_id ->
    exists rest,
      snd (create_node TYPES_URN tostring respond _get_and_check_auth
             name image auth ex_description PyNone (PyNetworkDomain domain)
             (PyVlan vlan) ex_is_started t)
      = (t1 ++ Sent deploy :: rest)%list.
Proof.
  intros name image auth auth_obj ex_description domain domain_id vlan
    ex_is_started t server_elm deploy t1 Hauth Hid.
  rewrite create_node_run, Hauth. simpl. rewrite Hid. simpl.
  fold server_elm. fold deploy. fold t1.
  destruct (respond t1 deploy); simpl; rewrite <- ?app_assoc; simpl; eauto.
Qed.


End DeploySteps.

(** ** Lifecycle actions and look-ups, when things go wrong *)

Section Failures.

Context (TYPES_URN : string) (tostring : Element -> string)
        (respond : Trace -> Request -> result Element).


(** X18: with the data centres listed, [list_locations] returns one
    location per [datacenter] child, in document order, and
    [ex_get_location_by_id] with an id never returns [None]: it raises
    [IndexError] exactly when no [datacenter] child has the id, and a
    location it returns is the one mapped from a child with that id. *)
Theorem ex_get_location_by_id_from_listing :
  forall (id : string) (t : Trace) (object : Element),
    respond t (mkRequest orgId_api_2 "infrastructure/datacenter" "GET"
                 [] None) = OK object ->
    let datacenters := ET_findall object (fixxpath "datacenter" TYPES_URN) in
    let found := fst (ex_get_location_by_id TYPES_URN respond (Some id) t) in
    fst (list_locations TYPES_URN respond t)
    = OK (map (_to_location TYPES_URN) datacenters)
    /\ found <> OK None
    /\ (found = Raise IndexError
        <-> forall element,
              In element datacenters -> get element "id" <> Some id)
    /\ (forall l,
          found = OK (Some l) ->
          exists element,
            In element datacenters
            /\ get element "id" = Some id
            /\ l = _to_location TYPES_URN element).
Proof.
  intros id t object Hobject datacenters found. subst found.
  unfold ex_get_location_by_id, list_locations, request_with_orgId_api_2,
    send, bind, lift, ret. simpl. rewrite Hobject. simpl.
  fold datacenters. unfold _to_locations. fold datacenters.
  split; [reflexivity |].
  destruct (filter_id_0 (Some id) (map (_to_location TYPES_URN) datacenters))
    as [l | e] eqn:Hl; simpl.
  - apply filter_id_0_OK in Hl as [Hin Hid].
    apply in_map_iff in Hin as (element & <- & Hin).
    split; [discriminate |]. split.
    + split; [discriminate |].
      intros Hno. exfalso. exact (Hno element Hin Hid).
    + intros l' [= <-]. now exists element.
  - apply filter_id_0_Raise in Hl as [-> Hno].
    split; [discriminate |]. split; [| discriminate].
    split; [| reflexivity].
    intros _ element Hin.
    apply (Hno (_to_location TYPES_URN element)).
    apply in_map_iff. now exists element.
Qed.

End Failures.


(** On the sample provider, the data centre [NA3] is looked up from the
    listing. *)
Lemma ex_get_location_by_id_from_listing_witness :
  fst (ex_get_location_by_id Sample.urn Sample.respond (Some "NA3") [])
  <> OK None.
Proof.
  exact (proj1 (proj2 (ex_get_location_by_id_from_listing
                         Sample.urn Sample.respond "NA3" []
                         Sample.datacenters eq_refl))).
Defined.


(** On the sample provider, a deployment into a network domain is
    sent. *)
Lemma create_node_network_domain_mode_witness :
  exists rest,
    snd (create_node Sample.urn Sample.serialise Sample.respond
           Sample.get_and_check_auth "web1" Sample.image (Some "secret")
           "web server" PyNone (PyNetworkDomain Sample.network_domain)
           (PyVlan Sample.vlan) true [])
    = ([Created "deployServer" [("xmlns", Sample.urn)]]
       ++ Sent (mkRequest orgId_api_2 "server/deployServer" "POST" []
                  (Some (Sample.serialise
                           (Elem "deployServer" [("xmlns", Sample.urn)] None
                              [Elem "name" [] (Some "web1") [];
                               Elem "description" [] (Some "web server") [];
                               Elem "imageId" [] (Some "IMG1") [];
                               Elem "start" [] (Some "true") [];
                               Elem "administratorPassword" []
                                 (Some "secret") [];
                               Elem "networkInfo"
                                 [("networkDomainId", "ND1")] None
                                 [Elem "primaryNic" [] None
                                    [Elem "vlanId" [] (Some "VLAN1") []]]]))))
       :: rest)%list.
Proof.
  exact (create_node_network_domain_mode
           Sample.urn Sample.serialise Sample.respond
           Sample.get_and_check_auth "web1" Sample.image (Some "secret")
           (mkAuth "secret" false) "web server" Sample.network_domain "ND1"
           Sample.vlan true [] eq_refl eq_refl).
Defined.

